(** * class2hooks: the predicate and resolution engine of [utils.ts]

    A shallow embedding of the helper functions that the class2hooks
    codemod builds on ([findModule], [hasModule], [hasReact],
    [hasOnlyRenderMethod], [findReactComponentNameByParent],
    [findReactES6ClassDeclarationByParent], [findReactES6ClassDeclaration],
    the two lifecycle finders, [getClassName], [isRenderMethod]) together
    with the part of jscodeshift's [Collection] API they call
    ([find], [filter], [size], [at], [paths]) and its [matchNode].

    JavaScript values are modelled as the objects the code sees: a node
    has own properties that are read by name, reading a property of
    [null] or [undefined] throws a [TypeError], and the functions live in
    a small error monad so that "never throws" is a statement one proves. *)

From Stdlib Require Import List String Bool Arith Lia ZArith.
Import ListNotations.
Local Open Scope string_scope.
Local Open Scope list_scope.
#[local] Set Warnings "-register-all".

(* ------------------------------------------------------------------ *)
(** ** Syntax trees (ESTree, as produced by the parser jscodeshift uses) *)

(** The [value] of a [Literal] node. *)
Inductive LiteralValue : Type :=
| LString (s : string)
| LBoolean (b : bool)
| LNull
| LNumber (z : Z)
| LRegExp (pattern : string).

(** One type for every node, like the [ASTNode] union of the source: the
    code inspects [type] at run time, so trees are not sorted into
    statements and expressions here either.  Constructor arguments are the
    node's fields in the order in which ast-types declares (and hence
    traverses) them. *)
Inductive Node : Type :=
| File (program : Node)
| Program (body : list Node)
| ImportDeclaration (specifiers : list Node) (source : Node)
| ImportSpecifier (imported local : Node)
| ImportDefaultSpecifier (local : Node)
| ImportNamespaceSpecifier (local : Node)
| ExportDefaultDeclaration (declaration : Node)
| ClassDeclaration (id : option Node) (body : Node) (superClass : option Node)
| ClassExpression (id : option Node) (body : Node) (superClass : option Node)
| ClassBody (body : list Node)
| MethodDefinition (kind : string) (key value : Node) (computed static : bool)
| ClassProperty (key : Node) (value : option Node) (computed static : bool)
| FunctionExpression (id : option Node) (params : list Node) (body : Node)
| BlockStatement (body : list Node)
| ExpressionStatement (expression : Node)
| ReturnStatement (argument : option Node)
| Identifier (name : string)
| Literal (value : LiteralValue)
| ThisExpression
| Super
| MemberExpression (object property : Node) (computed : bool)
| CallExpression (callee : Node) (arguments : list Node)
| AssignmentExpression (operator : string) (left right : Node)
| ObjectExpression (properties : list Node)
| Property (key value : Node).

(** The [type] tag of a node. *)
Definition nodeType (n : Node) : string :=
  match n with
  | File _ => "File"
  | Program _ => "Program"
  | ImportDeclaration _ _ => "ImportDeclaration"
  | ImportSpecifier _ _ => "ImportSpecifier"
  | ImportDefaultSpecifier _ => "ImportDefaultSpecifier"
  | ImportNamespaceSpecifier _ => "ImportNamespaceSpecifier"
  | ExportDefaultDeclaration _ => "ExportDefaultDeclaration"
  | ClassDeclaration _ _ _ => "ClassDeclaration"
  | ClassExpression _ _ _ => "ClassExpression"
  | ClassBody _ => "ClassBody"
  | MethodDefinition _ _ _ _ _ => "MethodDefinition"
  | ClassProperty _ _ _ _ => "ClassProperty"
  | FunctionExpression _ _ _ => "FunctionExpression"
  | BlockStatement _ => "BlockStatement"
  | ExpressionStatement _ => "ExpressionStatement"
  | ReturnStatement _ => "ReturnStatement"
  | Identifier _ => "Identifier"
  | Literal _ => "Literal"
  | ThisExpression => "ThisExpression"
  | Super => "Super"
  | MemberExpression _ _ _ => "MemberExpression"
  | CallExpression _ _ => "CallExpression"
  | AssignmentExpression _ _ _ => "AssignmentExpression"
  | ObjectExpression _ => "ObjectExpression"
  | Property _ _ => "Property"
  end.

(** The child nodes of a node, field by field. *)
Definition optNode (o : option Node) : list Node :=
  match o with Some c => [c] | None => [] end.

Definition children (n : Node) : list Node :=
  match n with
  | File p => [p]
  | Program b => b
  | ImportDeclaration ss src => ss ++ [src]
  | ImportSpecifier i l => [i; l]
  | ImportDefaultSpecifier l => [l]
  | ImportNamespaceSpecifier l => [l]
  | ExportDefaultDeclaration d => [d]
  | ClassDeclaration i b s => optNode i ++ [b] ++ optNode s
  | ClassExpression i b s => optNode i ++ [b] ++ optNode s
  | ClassBody b => b
  | MethodDefinition _ k v _ _ => [k; v]
  | ClassProperty k v _ _ => [k] ++ optNode v
  | FunctionExpression i ps b => optNode i ++ ps ++ [b]
  | BlockStatement b => b
  | ExpressionStatement e => [e]
  | ReturnStatement a => optNode a
  | Identifier _ => []
  | Literal _ => []
  | ThisExpression => []
  | Super => []
  | MemberExpression o p _ => [o; p]
  | CallExpression c args => c :: args
  | AssignmentExpression _ l r => [l; r]
  | ObjectExpression ps => ps
  | Property k v => [k; v]
  end.

(** Every node strictly below [n], in the pre-order in which a
    [recast.visit] traversal started at [n] reaches them. *)
Fixpoint descendants (n : Node) : list Node :=
  let many := fix many (l : list Node) : list Node :=
    match l with
    | [] => []
    | c :: r => (c :: descendants c) ++ many r
    end in
  let opt := fun o : option Node =>
    match o with
    | Some c => c :: descendants c
    | None => []
    end in
  match n with
  | File p => p :: descendants p
  | Program b => many b
  | ImportDeclaration ss src => many ss ++ (src :: descendants src)
  | ImportSpecifier i l => (i :: descendants i) ++ (l :: descendants l)
  | ImportDefaultSpecifier l => l :: descendants l
  | ImportNamespaceSpecifier l => l :: descendants l
  | ExportDefaultDeclaration d => d :: descendants d
  | ClassDeclaration i b s => opt i ++ (b :: descendants b) ++ opt s
  | ClassExpression i b s => opt i ++ (b :: descendants b) ++ opt s
  | ClassBody b => many b
  | MethodDefinition _ k v _ _ => (k :: descendants k) ++ (v :: descendants v)
  | ClassProperty k v _ _ => (k :: descendants k) ++ opt v
  | FunctionExpression i ps b => opt i ++ many ps ++ (b :: descendants b)
  | BlockStatement b => many b
  | ExpressionStatement e => e :: descendants e
  | ReturnStatement a => opt a
  | Identifier _ => []
  | Literal _ => []
  | ThisExpression => []
  | Super => []
  | MemberExpression o p _ => (o :: descendants o) ++ (p :: descendants p)
  | CallExpression c args => (c :: descendants c) ++ many args
  | AssignmentExpression _ l r => (l :: descendants l) ++ (r :: descendants r)
  | ObjectExpression ps => many ps
  | Property k v => (k :: descendants k) ++ (v :: descendants v)
  end.

(* ------------------------------------------------------------------ *)
(** ** JavaScript values and property access *)

Inductive Value : Type :=
| VUndefined
| VNull
| VString (s : string)
| VBoolean (b : bool)
| VNumber (z : Z)
| VRegExp (pattern : string)
| VNode (n : Node)
| VArray (l : list Node).

Definition ofLiteral (l : LiteralValue) : Value :=
  match l with
  | LString s => VString s
  | LBoolean b => VBoolean b
  | LNull => VNull
  | LNumber z => VNumber z
  | LRegExp p => VRegExp p
  end.

Definition ofOption (o : option Node) : Value :=
  match o with Some n => VNode n | None => VNull end.

(** The own properties of a node object: [None] when the node has no such
    property ([hasOwnProperty] is false, reading it gives [undefined]). *)
Definition ownProp (n : Node) (k : string) : option Value :=
  if k =? "type" then Some (VString (nodeType n)) else
  match n with
  | File p => if k =? "program" then Some (VNode p) else None
  | Program b | ClassBody b | BlockStatement b =>
      if k =? "body" then Some (VArray b) else None
  | ImportDeclaration ss src =>
      if k =? "specifiers" then Some (VArray ss)
      else if k =? "source" then Some (VNode src) else None
  | ImportSpecifier i l =>
      if k =? "imported" then Some (VNode i)
      else if k =? "local" then Some (VNode l) else None
  | ImportDefaultSpecifier l | ImportNamespaceSpecifier l =>
      if k =? "local" then Some (VNode l) else None
  | ExportDefaultDeclaration d =>
      if k =? "declaration" then Some (VNode d) else None
  | ClassDeclaration i b s | ClassExpression i b s =>
      if k =? "id" then Some (ofOption i)
      else if k =? "body" then Some (VNode b)
      else if k =? "superClass" then Some (ofOption s) else None
  | MethodDefinition kind key v c s =>
      if k =? "kind" then Some (VString kind)
      else if k =? "key" then Some (VNode key)
      else if k =? "value" then Some (VNode v)
      else if k =? "computed" then Some (VBoolean c)
      else if k =? "static" then Some (VBoolean s) else None
  | ClassProperty key v c s =>
      if k =? "key" then Some (VNode key)
      else if k =? "value" then Some (ofOption v)
      else if k =? "computed" then Some (VBoolean c)
      else if k =? "static" then Some (VBoolean s) else None
  | FunctionExpression i ps b =>
      if k =? "id" then Some (ofOption i)
      else if k =? "params" then Some (VArray ps)
      else if k =? "body" then Some (VNode b) else None
  | ExpressionStatement e =>
      if k =? "expression" then Some (VNode e) else None
  | ReturnStatement a =>
      if k =? "argument" then Some (ofOption a) else None
  | Identifier name => if k =? "name" then Some (VString name) else None
  | Literal v => if k =? "value" then Some (ofLiteral v) else None
  | ThisExpression | Super => None
  | MemberExpression o p c =>
      if k =? "object" then Some (VNode o)
      else if k =? "property" then Some (VNode p)
      else if k =? "computed" then Some (VBoolean c) else None
  | CallExpression c args =>
      if k =? "callee" then Some (VNode c)
      else if k =? "arguments" then Some (VArray args) else None
  | AssignmentExpression op l r =>
      if k =? "operator" then Some (VString op)
      else if k =? "left" then Some (VNode l)
      else if k =? "right" then Some (VNode r) else None
  | ObjectExpression ps =>
      if k =? "properties" then Some (VArray ps) else None
  | Property key v =>
      if k =? "key" then Some (VNode key)
      else if k =? "value" then Some (VNode v) else None
  end.

(** Results of evaluating an expression that may throw. *)
Inductive Result (A : Type) : Type :=
| Ok (a : A)
| TypeError.
Arguments Ok {A} a.
Arguments TypeError {A}.

Definition bind {A B : Type} (r : Result A) (f : A -> Result B) : Result B :=
  match r with
  | Ok a => f a
  | TypeError => TypeError
  end.

Notation "x <- r ;; k" := (bind r (fun x => k))
  (at level 61, r at next level, right associativity).

(** [v.k] and [v[k]]: a missing property reads as [undefined]; reading any
    property of [null] or [undefined] throws.  (The names read in this
    program are node fields, never [length] or an index, so primitives and
    arrays have none of them.) *)
Definition get (v : Value) (k : string) : Result Value :=
  match v with
  | VUndefined | VNull => TypeError
  | VNode n => Ok (match ownProp n k with Some x => x | None => VUndefined end)
  | _ => Ok VUndefined
  end.

(** [===] on the values this program compares.  Two object operands are
    only equal when they are the same object; the right operands here are
    strings, so an object on the left compares unequal. *)
Definition strictEq (v w : Value) : bool :=
  match v, w with
  | VUndefined, VUndefined => true
  | VNull, VNull => true
  | VString s, VString t => s =? t
  | VBoolean a, VBoolean b => Bool.eqb a b
  | VNumber a, VNumber b => Z.eqb a b
  | _, _ => false
  end.

(** [v == s] for a string [s].  The strings on the right of [==] in this
    program (["MethodDefinition"], ["Identifier"], ["render"]) are neither
    numeric nor the text of an object, so only an equal string is loosely
    equal to them. *)
Definition looseEqString (v : Value) (s : string) : bool :=
  match v with
  | VString t => t =? s
  | _ => false
  end.

(** The condition of [c ? a : b]. *)
Definition truthy (v : Value) : bool :=
  match v with
  | VUndefined | VNull => false
  | VString s => negb (s =? "")
  | VBoolean b => b
  | VNumber z => negb (Z.eqb z 0)
  | VRegExp _ | VNode _ | VArray _ => true
  end.

(* ------------------------------------------------------------------ *)
(** ** jscodeshift: [matchNode] and the [Collection] methods used *)

(** A filter object passed to [find]: nested object literals with
    primitive leaves. *)
Inductive Pattern : Type :=
| PValue (v : Value)
| PObject (props : list (string * Pattern)).

Definition isObject (v : Value) : bool :=
  match v with
  | VRegExp _ | VNode _ | VArray _ => true
  | _ => false
  end.

Definition hasOwn (v : Value) (k : string) : option Value :=
  match v with
  | VNode n => ownProp n k
  | _ => None
  end.

(** [matchNode(haystack, needle)]: when both are objects, every key of
    the needle is an own property of the haystack whose value matches in
    turn; otherwise [haystack === needle]. *)
Fixpoint matchNode (haystack : Value) (needle : Pattern) : bool :=
  match needle with
  | PObject props =>
      if isObject haystack then
        (fix every (ps : list (string * Pattern)) : bool :=
           match ps with
           | [] => true
           | (property, sub) :: rest =>
               match hasOwn haystack property with
               | Some v => matchNode v sub
               | None => false
               end && every rest
           end) props
      else false
  | PValue v => strictEq haystack v
  end.

(** A collection holds the nodes at its paths, in order. *)
Definition Collection : Type := list Node.

(** [c.find(type, filter)]: for each path of [c], the nodes strictly below
    it whose type is [type] and that match [filter], in traversal order.
    (None of the four types searched for in this program has a subtype.) *)
Definition find (c : Collection) (type : string) (filter : option Pattern)
  : Collection :=
  flat_map
    (fun p =>
       List.filter
         (fun n =>
            (nodeType n =? type) &&
            match filter with
            | Some needle => matchNode (VNode n) needle
            | None => true
            end)
         (descendants p))
    c.

(** [c.filter(callback)] for a callback that may throw. *)
Fixpoint filterM {A : Type} (callback : A -> Result bool) (l : list A)
  : Result (list A) :=
  match l with
  | [] => Ok []
  | x :: rest =>
      keep <- callback x ;;
      rest' <- filterM callback rest ;;
      Ok (if keep then x :: rest' else rest')
  end.

Definition size (c : Collection) : nat := List.length c.

(** [c.at(0)]: the collection of the first path, if any. *)
Definition at0 (c : Collection) : Collection := firstn 1 c.

(* ------------------------------------------------------------------ *)
(** ** The functions of [utils.ts] *)

Definition importDeclarationShape : Pattern :=
  PObject [("type", PValue (VString "ImportDeclaration"));
           ("source", PObject [("type", PValue (VString "Literal"))])].

Definition findModule (path : Collection) (module : string)
  : Result Collection :=
  filterM
    (fun declarator =>
       source <- get (VNode declarator) "source" ;;
       value <- get source "value" ;;
       Ok (strictEq value (VString module)))
    (find path "ImportDeclaration" (Some importDeclarationShape)).

Definition hasModule (path : Collection) (module : string) : Result bool :=
  found <- findModule path module ;;
  Ok (Nat.eqb (size found) 1).

Definition hasReact (path : Collection) : Result bool :=
  a <- hasModule path "React" ;;
  if a then Ok true else
  b <- hasModule path "react" ;;
  if b then Ok true else
  hasModule path "react-native".

Definition isRenderMethod (node : Node) : Result bool :=
  type <- get (VNode node) "type" ;;
  if looseEqString type "MethodDefinition" then
    key <- get (VNode node) "key" ;;
    keyType <- get key "type" ;;
    if looseEqString keyType "Identifier" then
      key' <- get (VNode node) "key" ;;
      name <- get key' "name" ;;
      Ok (looseEqString name "render")
    else Ok false
  else Ok false.

Definition hasOnlyRenderMethod (path : Node) : Result bool :=
  others <- filterM (fun p => r <- isRenderMethod p ;; Ok (negb r))
                    (find [path] "MethodDefinition" None) ;;
  Ok (Nat.eqb (size others) 0).

Definition importSpecifierShape (parentClassName : string) : Pattern :=
  PObject [("type", PValue (VString "ImportSpecifier"));
           ("imported",
            PObject [("type", PValue (VString "Identifier"));
                     ("name", PValue (VString parentClassName))])].

Definition findReactComponentNameByParent
  (path : Collection) (parentClassName : string) : Result Value :=
  reactImportDeclaration <-
    filterM (fun _ => hasReact path)
            (find path "ImportDeclaration" (Some importDeclarationShape)) ;;
  let componentImportSpecifier :=
    at0 (find reactImportDeclaration "ImportSpecifier"
              (Some (importSpecifierShape parentClassName))) in
  let paths := componentImportSpecifier in
  match paths with
  | first :: _ =>
      local <- get (VNode first) "local" ;;
      get local "name"
  | [] => Ok VUndefined
  end.

Definition identifierSuperClass (componentImport : Value) : Pattern :=
  PObject [("superClass",
            PObject [("type", PValue (VString "Identifier"));
                     ("name", PValue componentImport)])].

Definition memberSuperClass : Pattern :=
  PObject [("superClass",
            PObject [("type", PValue (VString "MemberExpression"));
                     ("object",
                      PObject [("type", PValue (VString "Identifier"));
                               ("name", PValue (VString "React"))]);
                     ("property",
                      PObject [("type", PValue (VString "Identifier"));
                               ("name", PValue (VString "Component"))])])].

Definition findReactES6ClassDeclarationByParent
  (path : Collection) (parentClassName : string) : Result Collection :=
  componentImport <- findReactComponentNameByParent path parentClassName ;;
  let selector :=
    if truthy componentImport
    then identifierSuperClass componentImport
    else memberSuperClass in
  Ok (find path "ClassDeclaration" (Some selector)).

Definition findReactES6ClassDeclaration (path : Collection)
  : Result Collection :=
  classDeclarations <- findReactES6ClassDeclarationByParent path "Component" ;;
  if Nat.eqb (size classDeclarations) 0
  then findReactES6ClassDeclarationByParent path "PureComponent"
  else Ok classDeclarations.

Definition hasReactES6Class (path : Collection) : Result bool :=
  found <- findReactES6ClassDeclaration path ;;
  Ok (Nat.ltb 0 (size found)).

Definition keyNameIs (hook : string) (element : Node) : Result bool :=
  key <- get (VNode element) "key" ;;
  name <- get key "name" ;;
  Ok (strictEq name (VString hook)).

Definition findComponentDidCatchMethod (path : Collection)
  : Result Collection :=
  filterM (keyNameIs "componentDidCatch") (find path "MethodDefinition" None).

Definition hasComponentDidCatchMethod (path : Collection) : Result bool :=
  found <- findComponentDidCatchMethod path ;;
  Ok (Nat.ltb 0 (size found)).

Definition findGetDerivedStateFromErrorMethod (path : Collection)
  : Result Collection :=
  filterM (keyNameIs "getDerivedStateFromError")
          (find path "MethodDefinition" None).

Definition hasGetDerivedStateFromErrorMethod (path : Collection)
  : Result bool :=
  found <- findGetDerivedStateFromErrorMethod path ;;
  Ok (Nat.ltb 0 (size found)).

(** [path.node.id.name] *)
Definition getClassName (path : Node) : Result Value :=
  id <- get (VNode path) "id" ;;
  get id "name".

(* ------------------------------------------------------------------ *)
(** ** Positions in a tree *)

(** [Below n d]: [d] occurs strictly below [n] in the tree. *)
Inductive Below (n : Node) : Node -> Prop :=
| below_child c : In c (children n) -> Below n c
| below_deeper c d : In c (children n) -> Below c d -> Below n d.

(* ------------------------------------------------------------------ *)
(** ** What the queries compute, read off the tree *)

(** All nodes strictly below the paths of a collection. *)
Definition below (path : Collection) : list Node := flat_map descendants path.

Definition literalImport (d : Node) : bool :=
  match d with
  | ImportDeclaration _ (Literal _) => true
  | _ => false
  end.

(** [d] is [import ... from "<module>"]. *)
Definition importsModule (module : string) (d : Node) : bool :=
  match d with
  | ImportDeclaration _ (Literal (LString s)) => s =? module
  | _ => false
  end.

Definition isMethodDefinition (n : Node) : bool :=
  match n with
  | MethodDefinition _ _ _ _ _ => true
  | _ => false
  end.

(** A method definition whose key is the identifier [render]. *)
Definition renderMethod (n : Node) : bool :=
  match n with
  | MethodDefinition _ (Identifier name) _ _ _ => name =? "render"
  | _ => false
  end.

(** A method definition whose key is the identifier [hook]. *)
Definition methodNamed (hook : string) (n : Node) : bool :=
  match n with
  | MethodDefinition _ (Identifier name) _ _ _ => name =? hook
  | _ => false
  end.

(** [{ <exported> as ... }] *)
Definition specifierFor (exported : string) (s : Node) : bool :=
  match s with
  | ImportSpecifier (Identifier name) _ => name =? exported
  | _ => false
  end.

(** The [local.name] of a specifier. *)
Definition localName (s : Node) : Value :=
  match s with
  | ImportSpecifier _ (Identifier name) => VString name
  | _ => VUndefined
  end.

(** [class ... extends <v>] for a bare identifier whose name is [v]. *)
Definition extendsNamed (v : Value) (c : Node) : bool :=
  match c with
  | ClassDeclaration _ _ (Some (Identifier s)) => strictEq (VString s) v
  | _ => false
  end.

(** [class ... extends React.<member>] *)
Definition extendsReactMember (member : string) (c : Node) : bool :=
  match c with
  | ClassDeclaration _ _
      (Some (MemberExpression (Identifier o) (Identifier p) _)) =>
      (o =? "React") && (p =? member)
  | _ => false
  end.

Definition exactlyOne (module : string) (path : Collection) : bool :=
  Nat.eqb (List.length (List.filter (importsModule module) (below path))) 1.

Definition reactImported (path : Collection) : bool :=
  exactlyOne "React" path || exactlyOne "react" path
  || exactlyOne "react-native" path.

(** The named-import specifiers for [exported] that the resolver looks
    at: those below any import declaration of the file, provided the
    framework is imported. *)
Definition candidateSpecifiers (path : Collection) (exported : string)
  : list Node :=
  List.filter (specifierFor exported)
    (below (if reactImported path
            then List.filter literalImport (below path)
            else [])).

Definition resolvedAlias (path : Collection) (exported : string) : Value :=
  match candidateSpecifiers path exported with
  | s :: _ => localName s
  | [] => VUndefined
  end.

(* ------------------------------------------------------------------ *)
(** ** Vocabulary of the specification *)

(** [d] is an import declaration whose source is the string literal
    [module]. *)
Definition ImportOf (module : string) (d : Node) : Prop :=
  exists specifiers, d = ImportDeclaration specifiers (Literal (LString module)).

(** Exactly one element of [l] (counted by position) satisfies [P]. *)
Definition ExactlyOne {A : Type} (P : A -> Prop) (l : list A) : Prop :=
  exists pre x post,
    l = pre ++ x :: post /\ P x /\
    Forall (fun y => ~ P y) pre /\ Forall (fun y => ~ P y) post.

(** The accepted spellings of the framework module, as [hasReact] lists
    them. *)
Definition moduleNames : list string := ["React"; "react"; "react-native"].

(** [c] contains a method definition whose key is the identifier [hook]. *)
Definition HasMethod (hook : string) (c : Node) : Prop :=
  exists kind value computed static,
    Below c (MethodDefinition kind (Identifier hook) value computed static).

(** Example trees. *)
Module Examples.

Definition method (kind name : string) : Node :=
  MethodDefinition kind (Identifier name)
    (FunctionExpression None [] (BlockStatement [])) false false.

Definition reactMember (member : string) : Node :=
  MemberExpression (Identifier "React") (Identifier member) false.

(** [import React from "react"] *)
Definition importReact : Node :=
  ImportDeclaration [ImportDefaultSpecifier (Identifier "React")]
    (Literal (LString "react")).

(** [import { <exported> as <local> } from "<module>"] *)
Definition importNamed (exported local module : string) : Node :=
  ImportDeclaration [ImportSpecifier (Identifier exported) (Identifier local)]
    (Literal (LString module)).

Definition class (name : string) (superClass : Node) (methods : list Node)
  : Node :=
  ClassDeclaration (Some (Identifier name)) (ClassBody methods)
    (Some superClass).

Definition file (body : list Node) : Collection := [File (Program body)].

(** [class Empty extends React.Component {}] *)
Definition emptyClass : Node := class "Empty" (reactMember "Component") [].

(** [class Greeter extends React.PureComponent { render() {} }] *)
Definition greeter : Node :=
  class "Greeter" (reactMember "PureComponent") [method "method" "render"].

(** [class A extends React.Component { render() {} }] *)
Definition classA : Node :=
  class "A" (reactMember "Component") [method "method" "render"].

(** [class B extends Foo { render() {} }] *)
Definition classB : Node :=
  class "B" (Identifier "Foo") [method "method" "render"].

(** [export default class extends React.Component { render() {} }] *)
Definition anonymousClass : Node :=
  ClassDeclaration None (ClassBody [method "method" "render"])
    (Some (reactMember "Component")).

(** [import React from "react"; class Greeter extends React.PureComponent ...] *)
Definition pureFile : Collection := file [importReact; greeter].

(** [import React from "react"; class A extends React.Component ...] *)
Definition qualifiedFile : Collection := file [importReact; classA].

(** [import { Component as Foo } from "react"; class B extends Foo ...] *)
Definition aliasedFile : Collection :=
  file [importNamed "Component" "Foo" "react"; classB].

(** As [aliasedFile], with a second import from the same module:
    [import { useState } from "react"]. *)
Definition twiceImportedFile : Collection :=
  file [importNamed "Component" "Foo" "react";
        importNamed "useState" "useState" "react"; classB].

(** [import { Component as Foo } from "other-lib"; import React from "react"] *)
Definition unrelatedFile : Collection :=
  file [importNamed "Component" "Foo" "other-lib"; importReact].

(** No import at all: [class A extends React.Component ...] *)
Definition noImportFile : Collection := file [classA].

End Examples.

(** [d] occurs strictly below one of the paths of the collection. *)
Definition BelowPath (path : Collection) (d : Node) : Prop :=
  exists root, In root path /\ Below root d.

(** [d] is an import declaration whose source is a literal. *)
Definition LiteralImport (d : Node) : Prop :=
  exists specifiers value, d = ImportDeclaration specifiers (Literal value).

(** [m] is a method definition whose key is the identifier [hook]. *)
Definition MethodNamed (hook : string) (m : Node) : Prop :=
  exists kind value computed static,
    m = MethodDefinition kind (Identifier hook) value computed static.

(** [c] is [class ... extends <name>], a declaration. *)
Definition ExtendsIdentifier (name : string) (c : Node) : Prop :=
  exists id body, c = ClassDeclaration id body (Some (Identifier name)).

(** [c] is [class ... extends React.Component] (or [React[Component]]),
    a declaration. *)
Definition ExtendsReactComponent (c : Node) : Prop :=
  exists id body computed,
    c = ClassDeclaration id body
          (Some (MemberExpression (Identifier "React")
                   (Identifier "Component") computed)).

(** Every import specifier below the paths binds an identifier, as in
    any parsed program. *)
Definition SpecifiersBindIdentifiers (path : Collection) : Prop :=
  forall imported local,
    BelowPath path (ImportSpecifier imported local) ->
    exists name, local = Identifier name.

(** The two input files of the repository's fixtures.  The model has no
    JSX nodes: the element that each [render] returns is left out of its
    [return] statement. *)
Module Fixtures.

Definition fn (params body : list Node) : Node :=
  FunctionExpression None params (BlockStatement body).

Definition render : Node :=
  MethodDefinition "method" (Identifier "render")
    (fn [] [ReturnStatement None]) false false.

(** [import React, { <name> } from "react"] *)
Definition importReactAnd (name : string) : Node :=
  ImportDeclaration
    [ImportDefaultSpecifier (Identifier "React");
     ImportSpecifier (Identifier name) (Identifier name)]
    (Literal (LString "react")).

(** [class OurComponent extends PureComponent { componentDidMount() {
    console.log("component unmounted") } render() { ... } }] *)
Definition ourComponent : Node :=
  ClassDeclaration (Some (Identifier "OurComponent"))
    (ClassBody
       [MethodDefinition "method" (Identifier "componentDidMount")
          (fn []
             [ExpressionStatement
                (CallExpression
                   (MemberExpression (Identifier "console")
                      (Identifier "log") false)
                   [Literal (LString "component unmounted")])])
          false false;
        render])
    (Some (Identifier "PureComponent")).

Definition pureComponentFile : Collection :=
  [File (Program [importReactAnd "PureComponent"; ourComponent;
                  ExportDefaultDeclaration (Identifier "OurComponent")])].

(** [class ClassWithState extends Component { constructor(props) {
    super(props); this.state = { num: 0 }; } render() { ... } }] *)
Definition classWithState : Node :=
  ClassDeclaration (Some (Identifier "ClassWithState"))
    (ClassBody
       [MethodDefinition "constructor" (Identifier "constructor")
          (fn [Identifier "props"]
             [ExpressionStatement
                (CallExpression Super [Identifier "props"]);
              ExpressionStatement
                (AssignmentExpression "="
                   (MemberExpression ThisExpression (Identifier "state")
                      false)
                   (ObjectExpression
                      [Property (Identifier "num") (Literal (LNumber 0))]))])
          false false;
        render])
    (Some (Identifier "Component")).

Definition withStateFile : Collection :=
  [File (Program [importReactAnd "Component"; classWithState;
                  ExportDefaultDeclaration (Identifier "ClassWithState")])].

(** [class Boundary extends React.Component { componentDidCatch() {}
    render() { ... } }] in a file that imports [React]. *)
Definition boundary : Node :=
  ClassDeclaration (Some (Identifier "Boundary"))
    (ClassBody
       [MethodDefinition "method" (Identifier "componentDidCatch")
          (fn [] []) false false;
        render])
    (Some (MemberExpression (Identifier "React") (Identifier "Component")
             false)).

Definition boundaryFile : Collection :=
  [File (Program [Examples.importReact; boundary])].

(** [import { Component as Base } from "react"] with one class extending
    [Base] and one extending [React.Component]. *)
Definition mixedFile : Collection :=
  [File (Program [Examples.importNamed "Component" "Base" "react";
                  Examples.class "C" (Identifier "Base") [render];
                  Examples.classA])].

End Fixtures.

(** Some accepted spelling of the framework module is imported exactly
    once. *)
Definition FrameworkImportedOnce (path : Collection) : Prop :=
  exists module,
    In module moduleNames /\ ExactlyOne (ImportOf module) (below path).

(** Some import declaration with a literal source, below the paths, holds
    a specifier that imports [exported] and binds [local]. *)
Definition NamedImport (path : Collection) (exported : string) (local : Node)
  : Prop :=
  exists d,
    BelowPath path d /\ LiteralImport d /\
    Below d (ImportSpecifier (Identifier exported) local).

(** The tree imports [{ <exported> as <local> }] from an accepted spelling
    of the framework module, and imports that spelling exactly once. *)
Definition ImportsFromFramework (path : Collection) (exported local : string)
  : Prop :=
  exists module specifiers,
    In module moduleNames /\
    ExactlyOne (ImportOf module) (below path) /\
    BelowPath path (ImportDeclaration specifiers (Literal (LString module))) /\
    In (ImportSpecifier (Identifier exported) (Identifier local)) specifiers.

(** [import { Component as Bar, Component as Foo } from "react";
    class B extends Foo { render() {} }] *)
Definition renamedTwiceFile : Collection :=
  Examples.file
    [ImportDeclaration
       [ImportSpecifier (Identifier "Component") (Identifier "Bar");
        ImportSpecifier (Identifier "Component") (Identifier "Foo")]
       (Literal (LString "react"));
     Examples.classB].

(* ------------------------------------------------------------------ *)
(** ** Traversal facts *)

Section Traversal.

(** [descendants] is the pre-order listing of the child relation. *)
Lemma descendants_children (n : Node) :
  descendants n = flat_map (fun c => c :: descendants c) (children n).
Proof.
  assert (many : forall l : list Node,
    (fix many (l : list Node) : list Node :=
       match l with
       | [] => []
       | c :: r => (c :: descendants c) ++ many r
       end) l = flat_map (fun c => c :: descendants c) l).
  { induction l as [|a l IH]; [reflexivity|].
    cbn [flat_map]. rewrite <- IH. reflexivity. }
  assert (opt : forall o : option Node,
    match o with Some c => c :: descendants c | None => [] end
    = flat_map (fun c => c :: descendants c) (optNode o)).
  { intros [c|]; cbn; rewrite ?app_nil_r; reflexivity. }
  destruct n; cbn [descendants children];
    rewrite ?flat_map_app, ?many, ?opt; cbn [flat_map app];
    rewrite ?app_nil_r; try reflexivity.
Qed.

Lemma child_fewer_descendants (n c : Node) :
  In c (children n) -> List.length (descendants c) < List.length (descendants n).
Proof.
  rewrite (descendants_children n).
  induction (children n) as [|a l IH]; intros Hin; [destruct Hin|].
  cbn [flat_map]. rewrite length_app. cbn [List.length].
  destruct Hin as [->|Hin]; [lia|]. specialize (IH Hin). lia.
Qed.

(** Induction over a tree through its children. *)
Lemma Node_children_ind (P : Node -> Prop) :
  (forall n, (forall c, In c (children n) -> P c) -> P n) ->
  forall n, P n.
Proof.
  intros step n.
  remember (List.length (descendants n)) as k eqn:Hk.
  revert n Hk. induction k as [k IH] using lt_wf_ind. intros n ->.
  apply step. intros c Hc.
  apply (IH _ (child_fewer_descendants n c Hc) c eq_refl).
Qed.

Lemma In_descendants (n d : Node) : In d (descendants n) <-> Below n d.
Proof.
  split.
  - revert d. induction n as [n IH] using Node_children_ind. intros d.
    rewrite descendants_children, in_flat_map.
    intros (c & Hc & [<-|Hd]).
    + now apply below_child.
    + apply below_deeper with c; auto.
  - induction 1 as [n c Hc|n c d Hc _ IH];
      rewrite descendants_children, in_flat_map; exists c; split; auto.
    + now left.
    + now right.
Qed.

End Traversal.

(* ------------------------------------------------------------------ *)
(** ** The queries agree with their reading *)

Section Characterisation.

Lemma filter_flat_map {A B : Type} (p : B -> bool) (g : A -> list B)
      (l : list A) :
  flat_map (fun x => List.filter p (g x)) l = List.filter p (flat_map g l).
Proof.
  induction l as [|a l IH]; [reflexivity|].
  cbn [flat_map]. now rewrite filter_app, IH.
Qed.

Lemma find_below (path : Collection) (type : string)
      (filter : option Pattern) :
  find path type filter =
  List.filter
    (fun n => (nodeType n =? type) &&
              match filter with
              | Some needle => matchNode (VNode n) needle
              | None => true
              end)
    (below path).
Proof. apply filter_flat_map. Qed.

Lemma filterM_filter {A : Type} (p g : A -> bool)
      (callback : A -> Result bool) (l : list A) :
  (forall x, p x = true -> callback x = Ok (g x)) ->
  filterM callback (List.filter p l)
  = Ok (List.filter (fun x => p x && g x) l).
Proof.
  intros Hcb. induction l as [|a l IH]; [reflexivity|].
  cbn [List.filter]. destruct (p a) eqn:Hp; cbn [andb]; [|exact IH].
  cbn [filterM]. rewrite (Hcb a Hp), IH. cbn [bind].
  now destruct (g a).
Qed.

Lemma filterM_const {A : Type} (b : bool) (l : list A) :
  filterM (fun _ => Ok b) l = Ok (if b then l else []).
Proof.
  induction l as [|a l IH]; cbn [filterM]; [now destruct b|].
  rewrite IH. now destruct b.
Qed.

Lemma find_ImportDeclaration (path : Collection) :
  find path "ImportDeclaration" (Some importDeclarationShape)
  = List.filter literalImport (below path).
Proof.
  rewrite find_below. apply filter_ext. intros n.
  destruct n as [| | ? src | | | | | | | | | | | | | | | | | | | | | |];
    try reflexivity.
  destruct src; reflexivity.
Qed.

Lemma find_MethodDefinition (path : Collection) :
  find path "MethodDefinition" None
  = List.filter isMethodDefinition (below path).
Proof.
  rewrite find_below. apply filter_ext. intros n.
  destruct n; reflexivity.
Qed.

Lemma findModule_pure (path : Collection) (module : string) :
  findModule path module
  = Ok (List.filter (importsModule module) (below path)).
Proof.
  unfold findModule. rewrite find_ImportDeclaration.
  rewrite (filterM_filter literalImport (importsModule module)).
  - f_equal. apply filter_ext. intros n.
    destruct n as [| | ? src | | | | | | | | | | | | | | | | | | | | | |];
      try reflexivity.
    destruct src; reflexivity.
  - intros n Hn.
    destruct n as [| | ? src | | | | | | | | | | | | | | | | | | | | | |];
      try discriminate Hn.
    destruct src as [| | | | | | | | | | | | | | | | | v | | | | | | |];
      try discriminate Hn.
    destruct v; reflexivity.
Qed.

Lemma hasModule_pure (path : Collection) (module : string) :
  hasModule path module = Ok (exactlyOne module path).
Proof. unfold hasModule. now rewrite findModule_pure. Qed.

Lemma hasReact_pure (path : Collection) :
  hasReact path = Ok (reactImported path).
Proof.
  unfold hasReact, reactImported. rewrite !hasModule_pure. cbn [bind].
  destruct (exactlyOne "React" path); [reflexivity|].
  destruct (exactlyOne "react" path); reflexivity.
Qed.

Lemma isRenderMethod_pure (n : Node) :
  isRenderMethod n = Ok (renderMethod n).
Proof.
  destruct n as [| | | | | | | | | | ? k | | | | | | | | | | | | | |];
    try reflexivity.
  destruct k; reflexivity.
Qed.

Lemma keyNameIs_pure (hook : string) (n : Node) :
  isMethodDefinition n = true ->
  keyNameIs hook n = Ok (methodNamed hook n).
Proof.
  destruct n as [| | | | | | | | | | ? k | | | | | | | | | | | | | |];
    try discriminate.
  intros _. destruct k; reflexivity.
Qed.

Lemma hasOnlyRenderMethod_pure (c : Node) :
  hasOnlyRenderMethod c
  = Ok (Nat.eqb
          (List.length
             (List.filter
                (fun m => isMethodDefinition m && negb (renderMethod m))
                (descendants c))) 0).
Proof.
  unfold hasOnlyRenderMethod. rewrite find_MethodDefinition.
  rewrite (filterM_filter isMethodDefinition
             (fun m => negb (renderMethod m))).
  - unfold below. cbn [flat_map bind]. now rewrite app_nil_r.
  - intros m _. now rewrite isRenderMethod_pure.
Qed.

Lemma findLifecycle_pure (hook : string) (path : Collection) :
  filterM (keyNameIs hook) (find path "MethodDefinition" None)
  = Ok (List.filter (methodNamed hook) (below path)).
Proof.
  rewrite find_MethodDefinition.
  rewrite (filterM_filter isMethodDefinition (methodNamed hook)).
  - f_equal. apply filter_ext. intros n.
    destruct n; reflexivity.
  - apply keyNameIs_pure.
Qed.

Lemma find_ImportSpecifier (path : Collection) (exported : string) :
  find path "ImportSpecifier" (Some (importSpecifierShape exported))
  = List.filter (specifierFor exported) (below path).
Proof.
  rewrite find_below. apply filter_ext. intros n.
  destruct n as [| | | i ? | | | | | | | | | | | | | | | | | | | | |];
    try reflexivity.
  destruct i; try reflexivity.
  cbn. now rewrite !andb_true_r.
Qed.

Lemma findReactComponentNameByParent_pure
      (path : Collection) (exported : string) :
  findReactComponentNameByParent path exported
  = Ok (resolvedAlias path exported).
Proof.
  unfold findReactComponentNameByParent, resolvedAlias, candidateSpecifiers.
  rewrite find_ImportDeclaration, hasReact_pure, filterM_const.
  cbn [bind]. rewrite find_ImportSpecifier.
  destruct (List.filter (specifierFor exported) _) as [|s rest] eqn:Hs;
    [reflexivity|].
  cbn [at0 firstn].
  assert (Hin : In s (s :: rest)) by now left.
  rewrite <- Hs in Hin. apply filter_In in Hin. destruct Hin as [_ Hspec].
  destruct s as [| | | i l | | | | | | | | | | | | | | | | | | | | |];
    try discriminate Hspec.
  destruct l; reflexivity.
Qed.

Lemma find_identifierSuperClass (path : Collection) (v : Value) :
  find path "ClassDeclaration" (Some (identifierSuperClass v))
  = List.filter (extendsNamed v) (below path).
Proof.
  rewrite find_below. apply filter_ext. intros n.
  destruct n as [| | | | | | | ? ? s | | | | | | | | | | | | | | | | |];
    try reflexivity.
  destruct s as [s|]; [|reflexivity].
  destruct s; try reflexivity.
  cbn. now rewrite !andb_true_r.
Qed.

Lemma find_memberSuperClass (path : Collection) :
  find path "ClassDeclaration" (Some memberSuperClass)
  = List.filter (extendsReactMember "Component") (below path).
Proof.
  rewrite find_below. apply filter_ext. intros n.
  destruct n as [| | | | | | | ? ? s | | | | | | | | | | | | | | | | |];
    try reflexivity.
  destruct s as [s|]; [|reflexivity].
  destruct s as [| | | | | | | | | | | | | | | | | | | | o p ? | | | |];
    try reflexivity.
  destruct o; try reflexivity;
    destruct p; cbn; rewrite ?andb_true_r, ?andb_false_r; reflexivity.
Qed.

(** The classes the by-parent locator returns. *)
Lemma findReactES6ClassDeclarationByParent_pure
      (path : Collection) (parent : string) :
  findReactES6ClassDeclarationByParent path parent
  = Ok (List.filter
          (if truthy (resolvedAlias path parent)
           then extendsNamed (resolvedAlias path parent)
           else extendsReactMember "Component")
          (below path)).
Proof.
  unfold findReactES6ClassDeclarationByParent.
  rewrite findReactComponentNameByParent_pure. cbn [bind].
  destruct (truthy (resolvedAlias path parent)).
  - now rewrite find_identifierSuperClass.
  - now rewrite find_memberSuperClass.
Qed.

End Characterisation.

(* ------------------------------------------------------------------ *)
(** ** Counting and reflection lemmas *)

Section Counting.

Context {A : Type} (p : A -> bool) (P : A -> Prop).
Hypothesis reflects : forall x, p x = true <-> P x.

Lemma filter_nil_Forall (l : list A) :
  List.filter p l = [] <-> Forall (fun y => ~ P y) l.
Proof.
  induction l as [|a l IH]; cbn [List.filter].
  - split; [constructor|reflexivity].
  - destruct (p a) eqn:Hp.
    + split; [discriminate|].
      intros H. inversion H as [|? ? Hn _]. apply reflects in Hp. contradiction.
    + rewrite IH. split.
      * intros H. constructor; [|exact H].
        intros HP. apply reflects in HP. congruence.
      * intros H. now inversion H.
Qed.

Lemma count_one_ExactlyOne (l : list A) :
  List.length (List.filter p l) = 1 <-> ExactlyOne P l.
Proof.
  split.
  - induction l as [|a l IH]; cbn [List.filter]; [discriminate|].
    destruct (p a) eqn:Hp.
    + cbn [List.length]. intros Hlen.
      exists [], a, l. repeat split.
      * now apply reflects.
      * constructor.
      * apply filter_nil_Forall. apply length_zero_iff_nil. lia.
    + intros Hlen. destruct (IH Hlen) as (pre & x & post & -> & Hx & Hpre & Hpost).
      exists (a :: pre), x, post. repeat split; auto.
      constructor; [|exact Hpre].
      intros HP. apply reflects in HP. congruence.
  - intros (pre & x & post & -> & Hx & Hpre & Hpost).
    rewrite filter_app. cbn [List.filter].
    apply filter_nil_Forall in Hpre. apply filter_nil_Forall in Hpost.
    apply reflects in Hx. rewrite Hpre, Hx, Hpost. reflexivity.
Qed.

End Counting.

Lemma importsModule_ImportOf (module : string) (d : Node) :
  importsModule module d = true <-> ImportOf module d.
Proof.
  split.
  - destruct d as [| | ss src | | | | | | | | | | | | | | | | | | | | | |];
      try discriminate.
    destruct src as [| | | | | | | | | | | | | | | | | v | | | | | | |];
      try discriminate.
    destruct v as [s| | | |]; try discriminate.
    cbn. intros Heq. apply String.eqb_eq in Heq. subst. now exists ss.
  - intros [ss ->]. cbn. apply String.eqb_refl.
Qed.

Lemma exactlyOne_ExactlyOne (module : string) (path : Collection) :
  exactlyOne module path = true <-> ExactlyOne (ImportOf module) (below path).
Proof.
  unfold exactlyOne. rewrite Nat.eqb_eq.
  apply count_one_ExactlyOne, importsModule_ImportOf.
Qed.

Lemma exactlyOne_absent (module : string) (path : Collection) :
  Forall (fun d => ~ ImportOf module d) (below path) ->
  exactlyOne module path = false.
Proof.
  intros H. unfold exactlyOne.
  apply (filter_nil_Forall _ _ (importsModule_ImportOf module)) in H.
  now rewrite H.
Qed.

Lemma reactImported_absent (path : Collection) :
  (forall module, In module moduleNames ->
     Forall (fun d => ~ ImportOf module d) (below path)) ->
  reactImported path = false.
Proof.
  intros H. unfold reactImported.
  rewrite !exactlyOne_absent; [reflexivity| | |]; apply H; cbn; auto.
Qed.

Lemma Ok_inj {A : Type} (a b : A) : Ok a = Ok b -> a = b.
Proof. now intros [= ->]. Qed.

(* ------------------------------------------------------------------ *)
(** ** Import resolver *)

(** C7: [hasModule] never throws, and it answers [true] exactly when one
    and only one import declaration of the tree has the string literal
    [module] as its source; no such import, or more than one, gives
    [false]. *)
Theorem hasModule_iff_exactly_one (path : Collection) (module : string) :
  (exists b, hasModule path module = Ok b) /\
  (hasModule path module = Ok true
   <-> ExactlyOne (ImportOf module) (below path)) /\
  (hasModule path module = Ok false
   <-> ~ ExactlyOne (ImportOf module) (below path)).
Proof.
  rewrite hasModule_pure. split; [eauto|].
  rewrite <- exactlyOne_ExactlyOne. split.
  - split; [apply Ok_inj|congruence].
  - destruct (exactlyOne module path); split; congruence.
Qed.

(** C8: [hasReact] never throws, it answers [true] exactly when
    [hasModule] does for one of the three spellings, and it answers
    [false] on a tree none of whose import declarations has one of these
    exact strings as its source. *)
Theorem hasReact_iff_some_spelling (path : Collection) :
  (exists b, hasReact path = Ok b) /\
  (hasReact path = Ok true
   <-> exists module, In module moduleNames /\ hasModule path module = Ok true) /\
  ((forall module, In module moduleNames ->
      Forall (fun d => ~ ImportOf module d) (below path)) ->
   hasReact path = Ok false).
Proof.
  rewrite hasReact_pure. split; [eauto|]. split.
  - unfold reactImported. split.
    + intros H. apply Ok_inj in H.
      apply orb_true_iff in H. destruct H as [H|H];
        [apply orb_true_iff in H; destruct H as [H|H]|].
      * exists "React". rewrite hasModule_pure, H. cbn; auto.
      * exists "react". rewrite hasModule_pure, H. cbn; auto.
      * exists "react-native". rewrite hasModule_pure, H. cbn; auto.
    + intros (module & Hin & H). rewrite hasModule_pure in H.
      apply Ok_inj in H.
      cbn in Hin. destruct Hin as [<-|[<-|[<-|[]]]]; rewrite H;
        now rewrite ?orb_true_r.
  - intros H. now rewrite reactImported_absent.
Qed.

(** The resolver never throws; what it returns is [resolvedAlias]. *)
Lemma findReactComponentNameByParent_total
      (path : Collection) (exported : string) :
  exists v, findReactComponentNameByParent path exported = Ok v.
Proof. rewrite findReactComponentNameByParent_pure. eauto. Qed.

(** It answers [undefined] when the framework is not imported. *)
Lemma resolvedAlias_not_imported (path : Collection) (exported : string) :
  reactImported path = false -> resolvedAlias path exported = VUndefined.
Proof.
  intros H. unfold resolvedAlias, candidateSpecifiers. now rewrite H.
Qed.

(** C3: on [import { Component as Foo } from "other-lib"; import React
    from "react"] the resolver answers ["Foo"] for [Component], although
    the only specifier for [Component] sits in the import from
    ["other-lib"]: once the file imports the framework, every import
    declaration is searched. *)
Theorem alias_from_unrelated_module :
  hasReact Examples.unrelatedFile = Ok true /\
  List.filter (specifierFor "Component")
    (descendants Examples.importReact) = [] /\
  findReactComponentNameByParent Examples.unrelatedFile "Component"
  = Ok (VString "Foo").
Proof. repeat split. Qed.

(* ------------------------------------------------------------------ *)
(** ** Base-class locator *)

(** Without an alias the by-parent locator searches for the qualified
    shape, whose property is the constant [Component]. *)
Lemma byParent_without_alias (path : Collection) (parent : string) :
  truthy (resolvedAlias path parent) = false ->
  findReactES6ClassDeclarationByParent path parent
  = Ok (List.filter (extendsReactMember "Component") (below path)).
Proof.
  intros H. now rewrite findReactES6ClassDeclarationByParent_pure, H.
Qed.

(** With an alias it searches for the bare identifier of that name. *)
Lemma byParent_with_alias (path : Collection) (parent : string) :
  truthy (resolvedAlias path parent) = true ->
  findReactES6ClassDeclarationByParent path parent
  = Ok (List.filter (extendsNamed (resolvedAlias path parent)) (below path)).
Proof.
  intros H. now rewrite findReactES6ClassDeclarationByParent_pure, H.
Qed.

(** The top-level locator, on the results of the two searches. *)
Lemma findReactES6ClassDeclaration_pure (path : Collection) :
  findReactES6ClassDeclaration path
  = match findReactES6ClassDeclarationByParent path "Component" with
    | Ok [] => findReactES6ClassDeclarationByParent path "PureComponent"
    | other => other
    end.
Proof.
  unfold findReactES6ClassDeclaration.
  destruct (findReactES6ClassDeclarationByParent path "Component")
    as [[|c first]|]; reflexivity.
Qed.

(** C1: on [import React from "react"; class Greeter extends
    React.PureComponent { render() {} }] no alias is found for
    [PureComponent], the tree holds a class extending
    [React.PureComponent], and the by-parent locator for [PureComponent]
    returns no class: its qualified shape asks for the property
    [Component] whatever the requested parent.  Conversely, on the same
    file with [class A extends React.Component] it returns [A] for
    [PureComponent]. *)
Theorem fallback_ignores_requested_parent :
  (findReactComponentNameByParent Examples.pureFile "PureComponent"
   = Ok VUndefined /\
   List.filter (extendsReactMember "PureComponent") (below Examples.pureFile)
   = [Examples.greeter] /\
   findReactES6ClassDeclarationByParent Examples.pureFile "PureComponent"
   = Ok []) /\
  (findReactComponentNameByParent Examples.qualifiedFile "PureComponent"
   = Ok VUndefined /\
   List.filter (extendsReactMember "PureComponent")
     (below Examples.qualifiedFile) = [] /\
   findReactES6ClassDeclarationByParent Examples.qualifiedFile "PureComponent"
   = Ok [Examples.classA]).
Proof. repeat split. Qed.

(** C6: both searches return a collection, and the top-level locator
    returns the result for [Component] unless it is empty, in which case
    it returns the result for [PureComponent]; it never throws. *)
Theorem findReactES6ClassDeclaration_two_tier (path : Collection) :
  exists first second,
    findReactES6ClassDeclarationByParent path "Component" = Ok first /\
    findReactES6ClassDeclarationByParent path "PureComponent" = Ok second /\
    findReactES6ClassDeclaration path
    = Ok (match first with [] => second | _ :: _ => first end).
Proof.
  rewrite findReactES6ClassDeclaration_pure.
  rewrite !findReactES6ClassDeclarationByParent_pure.
  eexists. eexists. split; [reflexivity|]. split; [reflexivity|].
  destruct (List.filter _ (below path)); reflexivity.
Qed.

(** C5, as the code has it: on a tree with no import declaration of an
    accepted spelling [hasReact] answers [false]; the locator does not ask
    whether the framework is imported, and when the tree has class
    declarations extending [React.Component] it returns exactly those. *)
Theorem locator_without_framework_import (path : Collection) :
  (forall module, In module moduleNames ->
     Forall (fun d => ~ ImportOf module d) (below path)) ->
  hasReact path = Ok false /\
  (List.filter (extendsReactMember "Component") (below path) <> [] ->
   findReactES6ClassDeclaration path
   = Ok (List.filter (extendsReactMember "Component") (below path))).
Proof.
  intros Hnone. apply reactImported_absent in Hnone.
  rewrite hasReact_pure, Hnone. split; [reflexivity|].
  intros Hsome.
  rewrite findReactES6ClassDeclaration_pure, byParent_without_alias.
  - destruct (List.filter _ (below path)); [now contradiction Hsome|reflexivity].
  - now rewrite resolvedAlias_not_imported.
Qed.

(** The import-free file [noImportFile] meets the hypothesis. *)
Lemma locator_without_framework_import_witness :
  hasReact Examples.noImportFile = Ok false /\
  (List.filter (extendsReactMember "Component") (below Examples.noImportFile)
   <> [] ->
   findReactES6ClassDeclaration Examples.noImportFile
   = Ok (List.filter (extendsReactMember "Component")
           (below Examples.noImportFile))).
Proof.
  apply (locator_without_framework_import Examples.noImportFile).
  intros module Hin. cbv [below Examples.noImportFile Examples.file flat_map].
  rewrite app_nil_r. apply Forall_forall. intros d Hd [ss ->].
  vm_compute in Hd. intuition discriminate.
Defined.

(** C5 as stated fails: a file without any import that declares
    [class A extends React.Component] has [hasReact] false, and the
    locator returns the class. *)
Lemma locator_without_framework_import_counterexample :
  List.filter (fun n => nodeType n =? "ImportDeclaration")
    (below Examples.noImportFile) = [] /\
  hasReact Examples.noImportFile = Ok false /\
  findReactES6ClassDeclaration Examples.noImportFile = Ok [Examples.classA].
Proof. repeat split. Qed.

(* ------------------------------------------------------------------ *)
(** ** Predicate library *)

Lemma renderMethod_key (kind : string) (key value : Node) (computed static : bool) :
  renderMethod (MethodDefinition kind key value computed static) = true
  <-> key = Identifier "render".
Proof.
  split.
  - destruct key; try discriminate. cbn.
    intros H. apply String.eqb_eq in H. now subst.
  - now intros ->.
Qed.

Lemma methodNamed_spec (hook : string) (m : Node) :
  methodNamed hook m = true
  <-> exists kind value computed static,
        m = MethodDefinition kind (Identifier hook) value computed static.
Proof.
  split.
  - destruct m as [| | | | | | | | | | kind k v c s | | | | | | | | | | | | | |];
      try discriminate.
    destruct k; try discriminate. cbn.
    intros H. apply String.eqb_eq in H. subst. now exists kind, v, c, s.
  - intros (kind & v & c & s & ->). cbn. apply String.eqb_refl.
Qed.

Lemma some_method_named (hook : string) (c : Node) :
  Nat.ltb 0 (size (List.filter (methodNamed hook) (below [c]))) = true
  <-> HasMethod hook c.
Proof.
  unfold below, size. cbn [flat_map]. rewrite app_nil_r, Nat.ltb_lt. split.
  - destruct (List.filter _ _) as [|m rest] eqn:Hf; cbn [List.length]; [lia|].
    intros _.
    assert (Hin : In m (m :: rest)) by now left.
    rewrite <- Hf in Hin. apply filter_In in Hin. destruct Hin as [Hin Hm].
    apply methodNamed_spec in Hm. destruct Hm as (kind & v & cm & s & ->).
    exists kind, v, cm, s. now apply In_descendants.
  - intros (kind & v & cm & s & Hbelow). apply In_descendants in Hbelow.
    assert (Hin : In (MethodDefinition kind (Identifier hook) v cm s)
                     (List.filter (methodNamed hook) (descendants c))).
    { apply filter_In. split; [exact Hbelow|].
      apply methodNamed_spec. now exists kind, v, cm, s. }
    destruct (List.filter _ _); [destruct Hin|cbn [List.length]; lia].
Qed.

(** C4 as stated fails: the class [Empty], which has no method at all,
    satisfies [hasOnlyRenderMethod]. *)
Lemma hasOnlyRenderMethod_counterexample :
  List.filter isMethodDefinition (descendants Examples.emptyClass) = [] /\
  hasOnlyRenderMethod Examples.emptyClass = Ok true.
Proof. split; reflexivity. Qed.

(** C4, as the code has it: [hasOnlyRenderMethod] never throws, and it
    answers [true] exactly when every method definition below the class
    node has the identifier [render] as its key; a class without methods
    satisfies it, a class with any other method does not. *)
Theorem hasOnlyRenderMethod_iff_every_method_is_render (c : Node) :
  (exists b, hasOnlyRenderMethod c = Ok b) /\
  (hasOnlyRenderMethod c = Ok true
   <-> forall kind key value computed static,
         Below c (MethodDefinition kind key value computed static) ->
         key = Identifier "render").
Proof.
  rewrite hasOnlyRenderMethod_pure. split; [eauto|].
  set (other := fun m => isMethodDefinition m && negb (renderMethod m)).
  transitivity (List.filter other (descendants c) = []).
  { split.
    - intros H. apply Ok_inj, Nat.eqb_eq in H. now apply length_zero_iff_nil.
    - intros ->. reflexivity. }
  rewrite (filter_nil_Forall other (fun m => other m = true))
    by (intros; reflexivity).
  rewrite Forall_forall. split.
  - intros H kind key value computed static Hbelow.
    apply In_descendants, H in Hbelow.
    apply (renderMethod_key kind key value computed static).
    unfold other in Hbelow. cbn [isMethodDefinition andb] in Hbelow.
    destruct (renderMethod _); [reflexivity|now contradiction Hbelow].
  - intros H m Hin. apply In_descendants in Hin.
    destruct m as [| | | | | | | | | | kind k v cm s | | | | | | | | | | | | | |];
      try (cbn; discriminate).
    specialize (H _ _ _ _ _ Hin). subst k. cbn. discriminate.
Qed.

(** C9: each lifecycle predicate, asked about a single node, never throws
    and answers [true] exactly when a method definition whose key is the
    identifier of that name occurs below the node. *)
Theorem lifecycle_predicates_iff_method_below (c : Node) :
  ((exists b, hasComponentDidCatchMethod [c] = Ok b) /\
   (hasComponentDidCatchMethod [c] = Ok true
    <-> HasMethod "componentDidCatch" c)) /\
  ((exists b, hasGetDerivedStateFromErrorMethod [c] = Ok b) /\
   (hasGetDerivedStateFromErrorMethod [c] = Ok true
    <-> HasMethod "getDerivedStateFromError" c)).
Proof.
  unfold hasComponentDidCatchMethod, findComponentDidCatchMethod,
    hasGetDerivedStateFromErrorMethod, findGetDerivedStateFromErrorMethod.
  rewrite !findLifecycle_pure. cbn [bind].
  split; (split; [eauto|]); rewrite <- some_method_named;
    (split; [apply Ok_inj|congruence]).
Qed.

(** C10: [getClassName] returns the name of a named class declaration,
    and throws a [TypeError] on an anonymous one (whose [id] is [null]). *)
Theorem getClassName_throws_on_anonymous_class :
  (forall name body superClass,
     getClassName (ClassDeclaration (Some (Identifier name)) body superClass)
     = Ok (VString name)) /\
  (forall body superClass,
     getClassName (ClassDeclaration None body superClass) = TypeError) /\
  getClassName Examples.anonymousClass = TypeError.
Proof. repeat split. Qed.

(* ------------------------------------------------------------------ *)
(** ** Tree-level readings of the queries *)

Lemma Below_trans (a b c : Node) : Below a b -> Below b c -> Below a c.
Proof.
  induction 1 as [a b Hb|a x b Hx _ IH]; intros Hc.
  - now apply below_deeper with b.
  - apply below_deeper with x; auto.
Qed.

Lemma In_below (path : Collection) (d : Node) :
  In d (below path) <-> BelowPath path d.
Proof.
  unfold below, BelowPath. rewrite in_flat_map.
  split; intros (root & Hroot & H); exists root; split; auto;
    now apply In_descendants.
Qed.

Lemma BelowPath_trans (path : Collection) (d e : Node) :
  BelowPath path d -> Below d e -> BelowPath path e.
Proof.
  intros (root & Hroot & Hd) He. exists root. split; [exact Hroot|].
  now apply Below_trans with d.
Qed.

Lemma literalImport_spec (d : Node) :
  literalImport d = true <-> LiteralImport d.
Proof.
  split.
  - destruct d as [| | ss src | | | | | | | | | | | | | | | | | | | | | |];
      try discriminate.
    destruct src; try discriminate. intros _. now eexists _, _.
  - now intros (ss & v & ->).
Qed.

Lemma specifierFor_spec (exported : string) (s : Node) :
  specifierFor exported s = true
  <-> exists local, s = ImportSpecifier (Identifier exported) local.
Proof.
  split.
  - destruct s as [| | | i l | | | | | | | | | | | | | | | | | | | | |];
      try discriminate.
    destruct i; try discriminate. cbn.
    intros H. apply String.eqb_eq in H. subst. now exists l.
  - intros (l & ->). cbn. apply String.eqb_refl.
Qed.

Lemma extendsNamed_spec (name : string) (c : Node) :
  extendsNamed (VString name) c = true <-> ExtendsIdentifier name c.
Proof.
  split.
  - destruct c as [| | | | | | | i b s | | | | | | | | | | | | | | | | |];
      try discriminate.
    destruct s as [s|]; try discriminate.
    destruct s; try discriminate. cbn.
    intros H. apply String.eqb_eq in H. subst. now exists i, b.
  - intros (i & b & ->). cbn. apply String.eqb_refl.
Qed.

Lemma extendsReactMember_spec (c : Node) :
  extendsReactMember "Component" c = true <-> ExtendsReactComponent c.
Proof.
  split.
  - destruct c as [| | | | | | | i b s | | | | | | | | | | | | | | | | |];
      try discriminate.
    destruct s as [s|]; try discriminate.
    destruct s as [| | | | | | | | | | | | | | | | | | | | o p k | | | |];
      try discriminate.
    destruct o; try discriminate; destruct p; try discriminate.
    cbn [extendsReactMember]. intros H. apply andb_true_iff in H.
    destruct H as [Ho Hp].
    apply String.eqb_eq in Ho. apply String.eqb_eq in Hp. subst.
    now exists i, b, k.
  - now intros (i & b & k & ->).
Qed.

(** What the resolver looks at, in terms of the tree. *)
Lemma In_candidateSpecifiers (path : Collection) (exported : string)
      (s : Node) :
  In s (candidateSpecifiers path exported)
  <-> reactImported path = true /\
      (exists local, s = ImportSpecifier (Identifier exported) local) /\
      exists d, BelowPath path d /\ LiteralImport d /\ Below d s.
Proof.
  unfold candidateSpecifiers. rewrite filter_In, specifierFor_spec, In_below.
  destruct (reactImported path).
  - split.
    + intros ((d & Hd & Hs) & Hspec). apply filter_In in Hd.
      destruct Hd as [Hd Hlit]. repeat split; auto.
      exists d. rewrite <- In_below, <- literalImport_spec. auto.
    + intros (_ & Hspec & d & Hd & Hlit & Hs). split; [|exact Hspec].
      exists d. split; [|exact Hs].
      apply filter_In. rewrite In_below, literalImport_spec. auto.
  - split.
    + intros ((d & [] & _) & _).
    + intros (H & _). discriminate H.
Qed.

Lemma reactImported_iff (path : Collection) :
  reactImported path = true <-> FrameworkImportedOnce path.
Proof.
  unfold reactImported, FrameworkImportedOnce.
  rewrite !orb_true_iff, !exactlyOne_ExactlyOne. split.
  - intros [[H|H]|H]; eexists; (split; [|exact H]); cbn; auto.
  - intros (module & Hin & H). cbn in Hin.
    destruct Hin as [<-|[<-|[<-|[]]]]; auto.
Qed.

Lemma NamedImport_candidates (path : Collection) (exported : string)
      (local : Node) :
  In (ImportSpecifier (Identifier exported) local)
     (candidateSpecifiers path exported)
  <-> reactImported path = true /\ NamedImport path exported local.
Proof.
  rewrite In_candidateSpecifiers. unfold NamedImport. split.
  - intros (Hreact & _ & H). auto.
  - intros (Hreact & H). repeat split; eauto.
Qed.

Lemma NamedImport_In (path : Collection) (exported : string) (local : Node) :
  NamedImport path exported local
  <-> In (ImportSpecifier (Identifier exported) local)
         (below (List.filter literalImport (below path))).
Proof.
  unfold NamedImport. rewrite In_below. split.
  - intros (d & Hd & Hlit & Hs). exists d. split; [|exact Hs].
    apply filter_In. split; [now apply In_below|now apply literalImport_spec].
  - intros (d & Hd & Hs). apply filter_In in Hd. destruct Hd as [Hd Hlit].
    exists d. split; [now apply In_below|].
    split; [now apply literalImport_spec|exact Hs].
Qed.

(** The resolver finds nothing in a tree that does not import the
    framework exactly once, or that has no named import of [exported]. *)
Lemma resolvedAlias_absent (path : Collection) (exported : string) :
  ~ FrameworkImportedOnce path \/
  (forall local, ~ NamedImport path exported local) ->
  resolvedAlias path exported = VUndefined.
Proof.
  intros H. unfold resolvedAlias.
  destruct (candidateSpecifiers path exported) as [|s rest] eqn:Hc;
    [reflexivity|].
  assert (Hin : In s (candidateSpecifiers path exported))
    by (rewrite Hc; now left).
  apply In_candidateSpecifiers in Hin.
  destruct Hin as (Hreact & (l & ->) & Hnamed).
  destruct H as [H|H].
  - now apply reactImported_iff in Hreact.
  - now contradiction (H l).
Qed.

(** It finds [local] in a tree that imports the framework exactly once,
    has a named import of [exported], and binds it to [local] only. *)
Lemma resolvedAlias_unique (path : Collection) (exported local : string) :
  ImportsFromFramework path exported local ->
  (forall l, NamedImport path exported l -> l = Identifier local) ->
  resolvedAlias path exported = VString local.
Proof.
  intros (module & ss & Hm & Honce & Hd & Hs) Honly.
  assert (Hreact : reactImported path = true)
    by (apply reactImported_iff; now exists module).
  assert (Hin : In (ImportSpecifier (Identifier exported) (Identifier local))
                   (candidateSpecifiers path exported)).
  { apply NamedImport_candidates. split; [exact Hreact|].
    exists (ImportDeclaration ss (Literal (LString module))).
    split; [exact Hd|]. split; [now eexists _, _|].
    apply below_child. cbn [children]. apply in_or_app. now left. }
  unfold resolvedAlias.
  destruct (candidateSpecifiers path exported) as [|s rest] eqn:Hc;
    [destruct Hin|].
  assert (Hfirst : In s (candidateSpecifiers path exported))
    by (rewrite Hc; now left).
  pose proof Hfirst as Hshape. apply In_candidateSpecifiers in Hshape.
  destruct Hshape as (_ & (l & ->) & _).
  apply NamedImport_candidates in Hfirst. destruct Hfirst as [_ Hnamed].
  now rewrite (Honly l Hnamed).
Qed.

(* ------------------------------------------------------------------ *)
(** ** Alias transparency *)

(** C2, as the code has it.  Take a first tree that has no named import
    of [Component] (or does not import the framework exactly once) and a
    second tree that imports [{ Component as Foo }], [Foo] not empty, from
    an accepted spelling of the framework module, imports that spelling
    exactly once, and binds [Component] to no other local name.  Then a
    class declaration of the first tree extending [React.Component] and a
    class declaration of the second extending [Foo] are classified alike:
    the locator returns both. *)
Theorem alias_transparency
        (path1 path2 : Collection) (Foo : string) (c1 c2 : Node) :
  ~ FrameworkImportedOnce path1 \/
  (forall local, ~ NamedImport path1 "Component" local) ->
  BelowPath path1 c1 -> ExtendsReactComponent c1 ->
  ImportsFromFramework path2 "Component" Foo ->
  (forall local, NamedImport path2 "Component" local ->
                 local = Identifier Foo) ->
  Foo <> "" ->
  BelowPath path2 c2 -> ExtendsIdentifier Foo c2 ->
  exists located1 located2,
    findReactES6ClassDeclaration path1 = Ok located1 /\
    findReactES6ClassDeclaration path2 = Ok located2 /\
    In c1 located1 /\ In c2 located2.
Proof.
  intros Hnone Hc1 He1 Himp Honly Hne Hc2 He2.
  apply resolvedAlias_absent in Hnone.
  pose proof (resolvedAlias_unique _ _ _ Himp Honly) as Hres.
  assert (Hfirst1 : In c1 (List.filter (extendsReactMember "Component")
                                       (below path1))).
  { apply filter_In. split; [now apply In_below|].
    now apply extendsReactMember_spec. }
  assert (Hfirst2 : In c2 (List.filter (extendsNamed (VString Foo))
                                       (below path2))).
  { apply filter_In. split; [now apply In_below|].
    now apply extendsNamed_spec. }
  exists (List.filter (extendsReactMember "Component") (below path1)),
         (List.filter (extendsNamed (VString Foo)) (below path2)).
  rewrite !findReactES6ClassDeclaration_pure.
  rewrite (byParent_without_alias path1 "Component") by now rewrite Hnone.
  rewrite (byParent_with_alias path2 "Component"), Hres
    by (rewrite Hres; cbn; now apply negb_true_iff, String.eqb_neq).
  repeat split; auto.
  - destruct (List.filter _ (below path1)); [destruct Hfirst1|reflexivity].
  - destruct (List.filter _ (below path2)); [destruct Hfirst2|reflexivity].
Qed.

(** [qualifiedFile] and [aliasedFile] meet the hypotheses. *)
Lemma alias_transparency_witness :
  exists located1 located2,
    findReactES6ClassDeclaration Examples.qualifiedFile = Ok located1 /\
    findReactES6ClassDeclaration Examples.aliasedFile = Ok located2 /\
    In Examples.classA located1 /\ In Examples.classB located2.
Proof.
  apply (alias_transparency Examples.qualifiedFile Examples.aliasedFile "Foo"
           Examples.classA Examples.classB).
  - right. intros local H. apply NamedImport_In in H. vm_compute in H.
    repeat (destruct H as [H|H]; [discriminate H|]). destruct H.
  - apply In_below. vm_compute. auto 10.
  - now eexists _, _, _.
  - exists "react",
      [ImportSpecifier (Identifier "Component") (Identifier "Foo")].
    split; [cbn; auto|]. split; [now apply exactlyOne_ExactlyOne|].
    split; [apply In_below; vm_compute; auto 10|now left].
  - intros local H. apply NamedImport_In in H. vm_compute in H.
    repeat (destruct H as [H|H];
            [try discriminate H; injection H as <-; reflexivity|]).
    destruct H.
  - discriminate.
  - apply In_below. vm_compute. auto 10.
  - now eexists _, _.
Defined.

(** C2 as stated fails, in three ways.  [twiceImportedFile] imports
    [{ Component as Foo }] from ["react"] and declares [class B extends
    Foo], yet nothing is located, because the module is imported twice.
    [renamedTwiceFile] imports it once, but binds [Component] to [Bar]
    first, and [B] is not located either.  [mixedFile] declares
    [class A extends React.Component] beside a named import of
    [Component], and [A] is not located, while the same class is located
    in [qualifiedFile]. *)
Lemma alias_transparency_counterexample :
  (In (Examples.importNamed "Component" "Foo" "react")
      (below Examples.twiceImportedFile) /\
   In Examples.classB (below Examples.twiceImportedFile) /\
   findReactES6ClassDeclaration Examples.twiceImportedFile = Ok []) /\
  (ImportsFromFramework renamedTwiceFile "Component" "Foo" /\
   In Examples.classB (below renamedTwiceFile) /\
   findReactES6ClassDeclaration renamedTwiceFile = Ok []) /\
  (In Examples.classA (below Fixtures.mixedFile) /\
   findReactES6ClassDeclaration Fixtures.mixedFile
   = Ok [Examples.class "C" (Identifier "Base") [Fixtures.render]]) /\
  findReactES6ClassDeclaration Examples.qualifiedFile = Ok [Examples.classA].
Proof.
  split; [|split; [|split]].
  - split; [vm_compute; auto 10|]. split; [vm_compute; auto 20|reflexivity].
  - split; [|split; [vm_compute; auto 20|reflexivity]].
    exists "react",
      [ImportSpecifier (Identifier "Component") (Identifier "Bar");
       ImportSpecifier (Identifier "Component") (Identifier "Foo")].
    split; [cbn; auto|]. split; [now apply exactlyOne_ExactlyOne|].
    split; [apply In_below; vm_compute; auto 10|cbn; auto].
  - split; [vm_compute; auto 30|reflexivity].
  - reflexivity.
Qed.

(* ------------------------------------------------------------------ *)
(** ** Further properties of the functions of [utils.ts] *)

(** X1: [findModule] never throws and returns exactly the import
    declarations below its paths whose source is the string literal
    [module]. *)
Theorem findModule_sound_complete (path : Collection) (module : string) :
  exists found,
    findModule path module = Ok found /\
    forall d, In d found <-> BelowPath path d /\ ImportOf module d.
Proof.
  rewrite findModule_pure. eexists. split; [reflexivity|].
  intros d. now rewrite filter_In, In_below, importsModule_ImportOf.
Qed.

(** X2: [isRenderMethod] never throws, whatever node it is given, and
    answers [true] exactly for a method definition whose key is the
    identifier [render], of any kind, computed or not, static or not. *)
Theorem isRenderMethod_iff (node : Node) :
  (exists b, isRenderMethod node = Ok b) /\
  (isRenderMethod node = Ok true <-> MethodNamed "render" node).
Proof.
  rewrite isRenderMethod_pure. split; [eauto|]. split.
  - intros H. apply Ok_inj in H.
    destruct node
      as [| | | | | | | | | | kind k v c s | | | | | | | | | | | | | |];
      try discriminate.
    apply renderMethod_key in H. subst. now exists kind, v, c, s.
  - now intros (kind & v & c & s & ->).
Qed.

(** X3: when [hasReact] is false the resolver answers [undefined] for
    every exported name, whatever the file imports. *)
Theorem resolver_needs_framework (path : Collection) (exported : string) :
  hasReact path = Ok false ->
  findReactComponentNameByParent path exported = Ok VUndefined.
Proof.
  rewrite hasReact_pure, findReactComponentNameByParent_pure.
  intros H. apply Ok_inj in H. now rewrite resolvedAlias_not_imported.
Qed.

(** A file that imports [{ Component as Foo }] from ["react"], twice. *)
Lemma resolver_needs_framework_witness :
  findReactComponentNameByParent Examples.twiceImportedFile "Component"
  = Ok VUndefined.
Proof.
  apply (resolver_needs_framework Examples.twiceImportedFile "Component").
  reflexivity.
Defined.

(** X4: the resolver answers [undefined] or a string; when it answers a
    string, the framework is imported and some import declaration with a
    literal source below the paths holds a specifier that imports
    [exported] under that local name. *)
Theorem resolver_sound (path : Collection) (exported : string) :
  exists v,
    findReactComponentNameByParent path exported = Ok v /\
    (v = VUndefined \/
     exists local,
       v = VString local /\
       hasReact path = Ok true /\
       exists d,
         BelowPath path d /\ LiteralImport d /\
         Below d (ImportSpecifier (Identifier exported) (Identifier local))).
Proof.
  rewrite findReactComponentNameByParent_pure, hasReact_pure.
  eexists. split; [reflexivity|].
  unfold resolvedAlias.
  destruct (candidateSpecifiers path exported) as [|s rest] eqn:Hc;
    [now left|].
  assert (Hin : In s (candidateSpecifiers path exported))
    by (rewrite Hc; now left).
  apply In_candidateSpecifiers in Hin.
  destruct Hin as (Hreact & (l & ->) & d & Hd & Hlit & Hs).
  destruct l; try (now left).
  right. eexists. split; [reflexivity|]. rewrite Hreact.
  split; [reflexivity|]. now exists d.
Qed.

(** X5: when the framework is imported and import specifiers bind
    identifiers, the resolver finds a local name as soon as some import
    declaration with a literal source holds a specifier for [exported]. *)
Theorem resolver_complete (path : Collection) (exported : string)
        (d local : Node) :
  hasReact path = Ok true ->
  SpecifiersBindIdentifiers path ->
  BelowPath path d -> LiteralImport d ->
  Below d (ImportSpecifier (Identifier exported) local) ->
  exists name, findReactComponentNameByParent path exported = Ok (VString name).
Proof.
  rewrite hasReact_pure, findReactComponentNameByParent_pure.
  intros Hreact Hwf Hd Hlit Hs. apply Ok_inj in Hreact.
  assert (Hin : In (ImportSpecifier (Identifier exported) local)
                   (candidateSpecifiers path exported)).
  { apply In_candidateSpecifiers. repeat split; eauto. }
  unfold resolvedAlias.
  destruct (candidateSpecifiers path exported) as [|s rest] eqn:Hc;
    [destruct Hin|].
  assert (Hfirst : In s (candidateSpecifiers path exported))
    by (rewrite Hc; now left).
  apply In_candidateSpecifiers in Hfirst.
  destruct Hfirst as (_ & (l & ->) & d' & Hd' & _ & Hs').
  destruct (Hwf _ _ (BelowPath_trans _ _ _ Hd' Hs')) as (name & ->).
  now exists name.
Qed.

(** The [withState] fixture imports [{ Component }] from ["react"]. *)
Lemma resolver_complete_witness :
  exists name,
    findReactComponentNameByParent Fixtures.withStateFile "Component"
    = Ok (VString name).
Proof.
  apply (resolver_complete Fixtures.withStateFile "Component"
           (Fixtures.importReactAnd "Component") (Identifier "Component")).
  - reflexivity.
  - intros i l H. apply In_below in H. vm_compute in H.
    repeat (destruct H as [H|H];
            [try discriminate H; injection H as <- <-; eauto|]).
    destruct H.
  - apply In_below. vm_compute. auto.
  - now eexists _, _.
  - apply In_descendants. vm_compute. auto 10.
Defined.

(** X6: the by-parent locator never throws, and everything it returns is
    a class declaration below the paths with an [extends] clause: either a
    bare identifier that the resolver returned for [parent], or
    [React.Component]. *)
Theorem byParent_sound (path : Collection) (parent : string) :
  exists found,
    findReactES6ClassDeclarationByParent path parent = Ok found /\
    forall c, In c found ->
      BelowPath path c /\
      ((exists alias,
          findReactComponentNameByParent path parent = Ok (VString alias) /\
          ExtendsIdentifier alias c)
       \/ ExtendsReactComponent c).
Proof.
  rewrite findReactES6ClassDeclarationByParent_pure,
    findReactComponentNameByParent_pure.
  eexists. split; [reflexivity|].
  intros c Hin. apply filter_In in Hin. destruct Hin as [Hin Hc].
  split; [now apply In_below|].
  destruct (truthy (resolvedAlias path parent)).
  - left.
    destruct c as [| | | | | | | i b s | | | | | | | | | | | | | | | | |];
      try discriminate.
    destruct s as [s|]; try discriminate. destruct s; try discriminate.
    cbn in Hc. destruct (resolvedAlias path parent); try discriminate.
    apply String.eqb_eq in Hc. subst.
    eexists. split; [reflexivity|]. now exists i, b.
  - right. now apply extendsReactMember_spec.
Qed.

(** X7: once the resolver has found a non-empty alias for [parent], the
    by-parent locator returns exactly the class declarations extending
    that bare identifier; a class extending [React.Component] is not
    among them. *)
Theorem alias_is_authoritative
        (path : Collection) (parent alias : string) :
  findReactComponentNameByParent path parent = Ok (VString alias) ->
  alias <> "" ->
  exists found,
    findReactES6ClassDeclarationByParent path parent = Ok found /\
    (forall c, In c found <-> BelowPath path c /\ ExtendsIdentifier alias c) /\
    (forall c, ExtendsReactComponent c -> ~ In c found).
Proof.
  intros Hres Hne. rewrite findReactComponentNameByParent_pure in Hres.
  apply Ok_inj in Hres.
  rewrite byParent_with_alias, Hres
    by (rewrite Hres; cbn; now apply negb_true_iff, String.eqb_neq).
  eexists. split; [reflexivity|].
  assert (Hiff : forall c,
    In c (List.filter (extendsNamed (VString alias)) (below path))
    <-> BelowPath path c /\ ExtendsIdentifier alias c).
  { intros c. now rewrite filter_In, In_below, extendsNamed_spec. }
  split; [exact Hiff|].
  intros c (i & b & k & ->) Hin. apply Hiff in Hin.
  destruct Hin as (_ & i' & b' & Heq). discriminate Heq.
Qed.

(** [mixedFile] renames [Component] to [Base]. *)
Lemma alias_is_authoritative_witness :
  exists found,
    findReactES6ClassDeclarationByParent Fixtures.mixedFile "Component"
    = Ok found /\
    (forall c, In c found
               <-> BelowPath Fixtures.mixedFile c /\ ExtendsIdentifier "Base" c) /\
    (forall c, ExtendsReactComponent c -> ~ In c found).
Proof.
  apply (alias_is_authoritative Fixtures.mixedFile "Component" "Base").
  - reflexivity.
  - discriminate.
Defined.

(** X8: first tier.  When the resolver finds a non-empty alias for
    [Component] and some class declaration extends it, the top-level
    locator returns exactly the class declarations extending that alias
    (classes extending anything else, such as an alias of [PureComponent],
    are not reported). *)
Theorem locator_first_tier (path : Collection) (alias : string) (c0 : Node) :
  findReactComponentNameByParent path "Component" = Ok (VString alias) ->
  alias <> "" ->
  BelowPath path c0 -> ExtendsIdentifier alias c0 ->
  exists found,
    findReactES6ClassDeclaration path = Ok found /\
    forall c, In c found <-> BelowPath path c /\ ExtendsIdentifier alias c.
Proof.
  intros Hres Hne H0 He0. rewrite findReactComponentNameByParent_pure in Hres.
  apply Ok_inj in Hres.
  assert (Hiff : forall c,
    In c (List.filter (extendsNamed (VString alias)) (below path))
    <-> BelowPath path c /\ ExtendsIdentifier alias c).
  { intros c. now rewrite filter_In, In_below, extendsNamed_spec. }
  exists (List.filter (extendsNamed (VString alias)) (below path)).
  split; [|exact Hiff].
  rewrite findReactES6ClassDeclaration_pure, byParent_with_alias, Hres
    by (rewrite Hres; cbn; now apply negb_true_iff, String.eqb_neq).
  assert (Hin : In c0 (List.filter (extendsNamed (VString alias))
                                   (below path))) by (apply Hiff; auto).
  destruct (List.filter _ (below path)); [destruct Hin|reflexivity].
Qed.

(** The [withState] fixture: [class ClassWithState extends Component]. *)
Lemma locator_first_tier_witness :
  exists found,
    findReactES6ClassDeclaration Fixtures.withStateFile = Ok found /\
    forall c, In c found
              <-> BelowPath Fixtures.withStateFile c /\
                  ExtendsIdentifier "Component" c.
Proof.
  apply (locator_first_tier Fixtures.withStateFile "Component"
           Fixtures.classWithState).
  - reflexivity.
  - discriminate.
  - apply In_below. vm_compute. auto 10.
  - now eexists _, _.
Defined.

(** X9: second tier.  When the resolver finds no alias for [Component],
    no class declaration extends [React.Component], and the resolver finds
    a non-empty alias for [PureComponent], the top-level locator returns
    exactly the class declarations extending that alias. *)
Theorem locator_second_tier (path : Collection) (alias : string) :
  findReactComponentNameByParent path "Component" = Ok VUndefined ->
  (forall c, BelowPath path c -> ~ ExtendsReactComponent c) ->
  findReactComponentNameByParent path "PureComponent" = Ok (VString alias) ->
  alias <> "" ->
  exists found,
    findReactES6ClassDeclaration path = Ok found /\
    forall c, In c found <-> BelowPath path c /\ ExtendsIdentifier alias c.
Proof.
  intros Hnone Hno Hres Hne.
  rewrite findReactComponentNameByParent_pure in Hnone, Hres.
  apply Ok_inj in Hnone. apply Ok_inj in Hres.
  exists (List.filter (extendsNamed (VString alias)) (below path)).
  split; [|intros c; now rewrite filter_In, In_below, extendsNamed_spec].
  rewrite findReactES6ClassDeclaration_pure.
  rewrite (byParent_without_alias path "Component") by now rewrite Hnone.
  assert (Hempty : List.filter (extendsReactMember "Component") (below path)
                   = []).
  { apply (filter_nil_Forall _ _ extendsReactMember_spec).
    apply Forall_forall. intros c Hc. apply Hno. now apply In_below. }
  rewrite Hempty, byParent_with_alias, Hres
    by (rewrite Hres; cbn; now apply negb_true_iff, String.eqb_neq).
  reflexivity.
Qed.

(** The other fixture: [class OurComponent extends PureComponent]. *)
Lemma locator_second_tier_witness :
  exists found,
    findReactES6ClassDeclaration Fixtures.pureComponentFile = Ok found /\
    forall c, In c found
              <-> BelowPath Fixtures.pureComponentFile c /\
                  ExtendsIdentifier "PureComponent" c.
Proof.
  apply (locator_second_tier Fixtures.pureComponentFile "PureComponent").
  - reflexivity.
  - intros c Hc (i & b & k & ->). apply In_below in Hc. vm_compute in Hc.
    repeat (destruct Hc as [Hc|Hc]; [discriminate Hc|]). destruct Hc.
  - reflexivity.
  - discriminate.
Defined.

(** X10: [hasReactES6Class] never throws, and answers [true] exactly when
    one of the two by-parent searches returns a class. *)
Theorem hasReactES6Class_iff (path : Collection) :
  (exists b, hasReactES6Class path = Ok b) /\
  (hasReactES6Class path = Ok true
   <-> exists parent found c,
         In parent ["Component"; "PureComponent"] /\
         findReactES6ClassDeclarationByParent path parent = Ok found /\
         In c found).
Proof.
  unfold hasReactES6Class. rewrite findReactES6ClassDeclaration_pure.
  rewrite !findReactES6ClassDeclarationByParent_pure.
  set (first := List.filter _ (below path)).
  set (second := List.filter _ (below path)).
  split; [destruct first; cbn [bind]; eauto|]. split.
  - destruct first as [|c first'] eqn:Hf.
    + destruct second as [|c second'] eqn:Hs; [discriminate|]. intros _.
      exists "PureComponent", (c :: second'), c.
      rewrite findReactES6ClassDeclarationByParent_pure. fold second.
      rewrite Hs. cbn; auto.
    + intros _. exists "Component", (c :: first'), c.
      rewrite findReactES6ClassDeclarationByParent_pure. fold first.
      rewrite Hf. cbn; auto.
  - intros (parent & found & c & Hp & Hfound & Hc).
    rewrite findReactES6ClassDeclarationByParent_pure in Hfound.
    apply Ok_inj in Hfound. subst found.
    destruct first as [|c1 first'] eqn:Hf; [|reflexivity].
    destruct Hp as [<-|[<-|[]]].
    + fold first in Hc. rewrite Hf in Hc. destruct Hc.
    + fold second in Hc. destruct second; [destruct Hc|reflexivity].
Qed.

Lemma hasOnlyRenderMethod_false_iff (c : Node) :
  hasOnlyRenderMethod c = Ok false
  <-> exists m, Below c m /\ isMethodDefinition m = true
                /\ renderMethod m = false.
Proof.
  rewrite hasOnlyRenderMethod_pure. split.
  - intros H. apply Ok_inj in H.
    destruct (List.filter _ (descendants c)) as [|m rest] eqn:Hf;
      [discriminate H|].
    assert (Hin : In m (m :: rest)) by now left.
    rewrite <- Hf in Hin. apply filter_In in Hin. destruct Hin as [Hin Hm].
    apply andb_true_iff in Hm. destruct Hm as [Hmd Hr].
    exists m. rewrite <- In_descendants. apply negb_true_iff in Hr. auto.
  - intros (m & Hm & Hmd & Hr). apply In_descendants in Hm.
    assert (Hin : In m (List.filter
                          (fun m => isMethodDefinition m
                                    && negb (renderMethod m))
                          (descendants c))).
    { apply filter_In. split; [exact Hm|]. now rewrite Hmd, Hr. }
    destruct (List.filter _ (descendants c)); [destruct Hin|reflexivity].
Qed.

Lemma hasOnlyRenderMethod_bool (c : Node) :
  hasOnlyRenderMethod c = Ok true \/ hasOnlyRenderMethod c = Ok false.
Proof.
  rewrite hasOnlyRenderMethod_pure.
  destruct (Nat.eqb _ 0); auto.
Qed.

(** X11: [hasOnlyRenderMethod] looks at every method definition below the
    node, those of nested classes included: if it holds of a node, it
    holds of every node below it. *)
Theorem hasOnlyRenderMethod_hereditary (c d : Node) :
  hasOnlyRenderMethod c = Ok true -> Below c d ->
  hasOnlyRenderMethod d = Ok true.
Proof.
  intros Hc Hd.
  destruct (hasOnlyRenderMethod_bool d) as [H|H]; [exact H|].
  apply hasOnlyRenderMethod_false_iff in H. destruct H as (m & Hm & Hmd & Hr).
  assert (Hfalse : hasOnlyRenderMethod c = Ok false).
  { apply hasOnlyRenderMethod_false_iff. exists m.
    split; [now apply Below_trans with d|auto]. }
  congruence.
Qed.

(** [class A extends React.Component { render() {} }] and its body. *)
Lemma hasOnlyRenderMethod_hereditary_witness :
  hasOnlyRenderMethod (ClassBody [Examples.method "method" "render"])
  = Ok true.
Proof.
  apply (hasOnlyRenderMethod_hereditary Examples.classA).
  - reflexivity.
  - apply In_descendants. vm_compute. auto 10.
Defined.

(** X12: a node for which one of the two lifecycle predicates holds is
    never render-only. *)
Theorem blocking_hook_excludes_render_only (c : Node) :
  hasComponentDidCatchMethod [c] = Ok true \/
  hasGetDerivedStateFromErrorMethod [c] = Ok true ->
  hasOnlyRenderMethod c = Ok false.
Proof.
  unfold hasComponentDidCatchMethod, findComponentDidCatchMethod,
    hasGetDerivedStateFromErrorMethod, findGetDerivedStateFromErrorMethod.
  rewrite !findLifecycle_pure. cbn [bind].
  intros [H|H]; apply Ok_inj, some_method_named in H;
    destruct H as (kind & v & cm & s & Hbelow);
    apply hasOnlyRenderMethod_false_iff; eexists; split; eauto.
Qed.

(** A class with [componentDidCatch] and [render]. *)
Lemma blocking_hook_excludes_render_only_witness :
  hasOnlyRenderMethod Fixtures.boundary = Ok false.
Proof.
  apply (blocking_hook_excludes_render_only Fixtures.boundary).
  left. reflexivity.
Defined.

(** X13: the two lifecycle finders never throw; each returns exactly the
    method definitions below the paths whose key is the identifier of its
    hook, and no node is returned by both. *)
Theorem lifecycle_finders_sound_complete (path : Collection) :
  exists caught derived,
    findComponentDidCatchMethod path = Ok caught /\
    findGetDerivedStateFromErrorMethod path = Ok derived /\
    (forall m, In m caught
               <-> BelowPath path m /\ MethodNamed "componentDidCatch" m) /\
    (forall m, In m derived
               <-> BelowPath path m /\
                   MethodNamed "getDerivedStateFromError" m) /\
    (forall m, In m caught -> ~ In m derived).
Proof.
  unfold findComponentDidCatchMethod, findGetDerivedStateFromErrorMethod.
  rewrite !findLifecycle_pure.
  eexists. eexists. split; [reflexivity|]. split; [reflexivity|].
  assert (Hiff : forall hook m,
    In m (List.filter (methodNamed hook) (below path))
    <-> BelowPath path m /\ MethodNamed hook m).
  { intros hook m. now rewrite filter_In, In_below, methodNamed_spec. }
  split; [apply Hiff|]. split; [apply Hiff|].
  intros m H1 H2. apply Hiff in H1. apply Hiff in H2.
  destruct H1 as (_ & k1 & v1 & c1 & s1 & ->).
  destruct H2 as (_ & k2 & v2 & c2 & s2 & Heq). discriminate Heq.
Qed.

Lemma hasLifecycle_collection (hook : string) (path : Collection) :
  Nat.ltb 0 (size (List.filter (methodNamed hook) (below path))) = true
  <-> exists m, BelowPath path m /\ MethodNamed hook m.
Proof.
  unfold size. rewrite Nat.ltb_lt. split.
  - destruct (List.filter _ _) as [|m rest] eqn:Hf; cbn [List.length]; [lia|].
    intros _. exists m.
    assert (Hin : In m (m :: rest)) by now left.
    rewrite <- Hf in Hin.
    now rewrite filter_In, In_below, methodNamed_spec in Hin.
  - intros (m & Hm & Hnamed).
    assert (Hin : In m (List.filter (methodNamed hook) (below path))).
    { apply filter_In. split; [now apply In_below|].
      now apply methodNamed_spec. }
    destruct (List.filter _ _); [destruct Hin|cbn [List.length]; lia].
Qed.

(** X14: asked about a node, a lifecycle predicate that holds of some node
    below it holds of the node itself: a hook found in a class is found
    in the file that declares the class. *)
Theorem lifecycle_predicates_propagate_upwards (root c : Node) :
  Below root c ->
  (hasComponentDidCatchMethod [c] = Ok true ->
   hasComponentDidCatchMethod [root] = Ok true) /\
  (hasGetDerivedStateFromErrorMethod [c] = Ok true ->
   hasGetDerivedStateFromErrorMethod [root] = Ok true).
Proof.
  intros Hc.
  unfold hasComponentDidCatchMethod, findComponentDidCatchMethod,
    hasGetDerivedStateFromErrorMethod, findGetDerivedStateFromErrorMethod.
  rewrite !findLifecycle_pure. cbn [bind].
  split; intros H; apply Ok_inj, hasLifecycle_collection in H; f_equal;
    apply hasLifecycle_collection;
    destruct H as (m & (r & [<-|[]] & Hm) & Hnamed);
    exists m; (split; [|exact Hnamed]);
    exists root; (split; [now left|]); now apply Below_trans with c.
Qed.

(** The class [Boundary] inside its file. *)
Lemma lifecycle_predicates_propagate_upwards_witness :
  (hasComponentDidCatchMethod [Fixtures.boundary] = Ok true ->
   hasComponentDidCatchMethod Fixtures.boundaryFile = Ok true) /\
  (hasGetDerivedStateFromErrorMethod [Fixtures.boundary] = Ok true ->
   hasGetDerivedStateFromErrorMethod Fixtures.boundaryFile = Ok true).
Proof.
  apply (lifecycle_predicates_propagate_upwards
           (File (Program [Examples.importReact; Fixtures.boundary]))
           Fixtures.boundary).
  apply In_descendants. vm_compute. auto 10.
Defined.

(** X15: over a whole collection, each lifecycle predicate never throws
    and answers [true] exactly when a method definition whose key is the
    identifier of its hook occurs below one of the paths. *)
Theorem lifecycle_predicates_on_collections (path : Collection) :
  ((exists b, hasComponentDidCatchMethod path = Ok b) /\
   (hasComponentDidCatchMethod path = Ok true
    <-> exists m, BelowPath path m /\ MethodNamed "componentDidCatch" m)) /\
  ((exists b, hasGetDerivedStateFromErrorMethod path = Ok b) /\
   (hasGetDerivedStateFromErrorMethod path = Ok true
    <-> exists m, BelowPath path m /\
                  MethodNamed "getDerivedStateFromError" m)).
Proof.
  unfold hasComponentDidCatchMethod, findComponentDidCatchMethod,
    hasGetDerivedStateFromErrorMethod, findGetDerivedStateFromErrorMethod.
  rewrite !findLifecycle_pure. cbn [bind].
  split; (split; [eauto|]); rewrite <- hasLifecycle_collection;
    (split; [apply Ok_inj|congruence]).
Qed.

(** Everything the top-level locator returns is a class declaration below
    the paths that has an [extends] clause. *)
Lemma located_is_class (path : Collection) (found : Collection) (c : Node) :
  findReactES6ClassDeclaration path = Ok found -> In c found ->
  BelowPath path c /\
  exists id body superClass, c = ClassDeclaration id body (Some superClass).
Proof.
  rewrite findReactES6ClassDeclaration_pure.
  rewrite !findReactES6ClassDeclarationByParent_pure.
  assert (Hclass : forall p, In c (List.filter p (below path)) ->
            (p c = true -> exists i b s, c = ClassDeclaration i b (Some s)) ->
            BelowPath path c /\
            exists i b s, c = ClassDeclaration i b (Some s)).
  { intros p Hin Hp. apply filter_In in Hin. destruct Hin as [Hin Hc].
    split; [now apply In_below|auto]. }
  assert (Hnamed : forall v, extendsNamed v c = true ->
            exists i b s, c = ClassDeclaration i b (Some s)).
  { intros v.
    destruct c as [| | | | | | | i b s | | | | | | | | | | | | | | | | |];
      try discriminate.
    destruct s; [eauto|discriminate]. }
  assert (Hmember : extendsReactMember "Component" c = true ->
            exists i b s, c = ClassDeclaration i b (Some s)).
  { intros H. apply extendsReactMember_spec in H.
    destruct H as (i & b & k & ->). eauto. }
  destruct (List.filter _ (below path)) as [|c1 first] eqn:Hf.
  - intros H Hin. apply Ok_inj in H. subst found.
    apply Hclass in Hin; [exact Hin|].
    destruct (truthy (resolvedAlias path "PureComponent")); eauto.
  - intros H Hin. apply Ok_inj in H. subst found. rewrite <- Hf in Hin.
    apply Hclass in Hin; [exact Hin|].
    destruct (truthy (resolvedAlias path "Component")); eauto.
Qed.

(** X16: on a class that the top-level locator returned, [getClassName]
    throws exactly when the class is anonymous. *)
Theorem getClassName_of_located_class
        (path found : Collection) (c : Node) :
  findReactES6ClassDeclaration path = Ok found -> In c found ->
  (getClassName c = TypeError
   <-> exists body superClass, c = ClassDeclaration None body superClass).
Proof.
  intros Hfound Hin.
  destruct (located_is_class _ _ _ Hfound Hin) as (_ & i & b & s & ->).
  split.
  - destruct i as [i|]; [|eauto].
    unfold getClassName. cbn. discriminate.
  - intros (b' & s' & Heq). injection Heq as -> _ _. reflexivity.
Qed.

(** The class of the [withState] fixture is named. *)
Lemma getClassName_of_located_class_witness :
  getClassName Fixtures.classWithState = TypeError
  <-> exists body superClass,
        Fixtures.classWithState = ClassDeclaration None body superClass.
Proof.
  apply (getClassName_of_located_class Fixtures.withStateFile
           [Fixtures.classWithState]).
  - reflexivity.
  - now left.
Defined.

(** X17: on a tree none of whose class declarations has an [extends]
    clause (in particular one without classes) the top-level locator
    returns the empty collection and [hasReactES6Class] answers [false]. *)
Theorem locator_without_subclasses (path : Collection) :
  (forall id body superClass,
     ~ BelowPath path (ClassDeclaration id body (Some superClass))) ->
  findReactES6ClassDeclaration path = Ok [] /\
  hasReactES6Class path = Ok false.
Proof.
  intros Hno.
  assert (Hempty : findReactES6ClassDeclaration path = Ok []).
  { destruct (findReactES6ClassDeclaration path) as [found|] eqn:Hfound.
    - destruct found as [|c rest]; [reflexivity|].
      destruct (located_is_class path (c :: rest) c Hfound)
        as (Hc & i & b & s & ->); [now left|].
      now contradiction (Hno i b s).
    - rewrite findReactES6ClassDeclaration_pure in Hfound.
      rewrite !findReactES6ClassDeclarationByParent_pure in Hfound.
      destruct (List.filter _ (below path)); discriminate Hfound. }
  split; [exact Hempty|].
  unfold hasReactES6Class. now rewrite Hempty.
Qed.

(** A file that only imports [React]. *)
Lemma locator_without_subclasses_witness :
  findReactES6ClassDeclaration (Examples.file [Examples.importReact])
  = Ok [] /\
  hasReactES6Class (Examples.file [Examples.importReact]) = Ok false.
Proof.
  apply (locator_without_subclasses (Examples.file [Examples.importReact])).
  intros i b s H. apply In_below in H. vm_compute in H.
  repeat (destruct H as [H|H]; [discriminate H|]). destruct H.
Defined.
